(** * Bank reconciliation ingestion: a shallow embedding of [upload/tasks.py]

    The development follows the module top to bottom: text helpers used by
    the column normaliser, the exception type and its monad, the date
    helper [try_parse_date], the two static registries, the two record
    tables of [upload/models.py], [convert_to_csv] and the per-file task
    [process_uploaded_files].

    Text is modelled as [string] whose characters are the code points
    below 256; the character classes below are the ones Python's [str]
    methods and [re] module use on that range.  Library entry points
    (pandas readers, the generic date parser, [pd.to_numeric], byte
    decoding) are section variables of the task. *)

From Stdlib Require Import ZArith QArith Ascii String.
From Stdlib Require Import DecimalString DecimalN.
From stdpp Require Import gmap strings list fin_maps.

Open Scope string_scope.

(** ** Characters and text helpers *)

Module Text.

Definition code (c : ascii) : N := N_of_ascii c.

Definition in_range (lo hi : N) (c : ascii) : bool :=
  ((lo <=? code c) && (code c <=? hi))%N.

(** [str.isspace], the set removed by [str.strip()]. *)
Definition is_space (c : ascii) : bool :=
  in_range 9 13 c || in_range 28 32 c
  || (code c =? 133)%N || (code c =? 160)%N.

Definition is_digit (c : ascii) : bool := in_range 48 57 c.

Definition is_ascii_letter (c : ascii) : bool :=
  in_range 65 90 c || in_range 97 122 c.

(** Letters of the Latin-1 block: ª µ º À-Ö Ø-ö ø-ÿ. *)
Definition is_latin1_letter (c : ascii) : bool :=
  (code c =? 170)%N || (code c =? 181)%N || (code c =? 186)%N
  || in_range 192 214 c || in_range 216 246 c || in_range 248 255 c.

(** Numeric characters of the Latin-1 block: ² ³ ¹ ¼ ½ ¾. *)
Definition is_latin1_numeric (c : ascii) : bool :=
  (code c =? 178)%N || (code c =? 179)%N || (code c =? 185)%N
  || in_range 188 190 c.

Definition is_letter (c : ascii) : bool :=
  is_ascii_letter c || is_latin1_letter c.

Definition is_alnum (c : ascii) : bool :=
  is_letter c || is_digit c || is_latin1_numeric c.

Definition is_underscore (c : ascii) : bool := (code c =? 95)%N.

(** The class [\w] of [re] on [str] patterns: alphanumerics and the
    underscore.  [\W] is its complement. *)
Definition is_word (c : ascii) : bool := is_alnum c || is_underscore c.

Fixpoint all_chars (p : ascii -> bool) (s : string) : bool :=
  match s with
  | EmptyString => true
  | String c t => p c && all_chars p t
  end.

Fixpoint filter_chars (p : ascii -> bool) (s : string) : string :=
  match s with
  | EmptyString => EmptyString
  | String c t => if p c then String c (filter_chars p t) else filter_chars p t
  end.

Fixpoint lstrip_with (sp : ascii -> bool) (s : string) : string :=
  match s with
  | EmptyString => EmptyString
  | String c t => if sp c then lstrip_with sp t else s
  end.

Fixpoint rstrip_with (sp : ascii -> bool) (s : string) : string :=
  match s with
  | EmptyString => EmptyString
  | String c t =>
      match rstrip_with sp t with
      | EmptyString => if sp c then EmptyString else String c EmptyString
      | t' => String c t'
      end
  end.

(** [s.strip()] *)
Definition strip (s : string) : string :=
  rstrip_with is_space (lstrip_with is_space s).

(** [c in s] for a one-character needle. *)
Fixpoint contains_char (c : ascii) (s : string) : bool :=
  match s with
  | EmptyString => false
  | String d t => Ascii.eqb c d || contains_char c t
  end.

Fixpoint rev_string (acc s : string) : string :=
  match s with
  | EmptyString => acc
  | String c t => rev_string (String c acc) t
  end.

(** [s.endswith(suffix)] *)
Definition endswith (s suffix : string) : bool :=
  String.prefix (rev_string "" suffix) (rev_string "" s).

(** [re.sub(r'\W+', '', s)]: every maximal run of non-word characters
    is replaced by the empty string, so the result is the word
    characters of [s] in their order. *)
Fixpoint re_sub_nonword (s : string) : string :=
  match s with
  | EmptyString => EmptyString
  | String c t =>
      if is_word c then String c (re_sub_nonword t) else re_sub_nonword t
  end.

End Text.

(** ** Exceptions and dynamically typed cell values *)

(** The exception classes that the task can see.  [LibraryError] stands for
    any other subclass of [Exception] raised inside a library call. *)
Inductive exn : Type :=
| ValueError (msg : string)
| KeyError (key : string)
| AttributeError (msg : string)
| TypeError (msg : string)
| EmptyDataError (msg : string)
| IntegrityError (msg : string)
| LibraryError (msg : string).

(** [repr] of a text; the escapes that [repr] inserts for quotes,
    backslashes and control characters are not modelled. *)
Definition py_repr (s : string) : string := "'" ++ s ++ "'".

(** [str(e)]: the message, except for [KeyError], which shows the [repr]
    of the key. *)
Definition str_exn (e : exn) : string :=
  match e with
  | KeyError k => py_repr k
  | ValueError m | AttributeError m | TypeError m
  | EmptyDataError m | IntegrityError m | LibraryError m => m
  end.

Inductive result (A : Type) : Type :=
| Ok (a : A)
| Raise (e : exn).
Arguments Ok {A} a.
Arguments Raise {A} e.

Definition bind {A B : Type} (m : result A) (k : A -> result B) : result B :=
  match m with
  | Ok a => k a
  | Raise e => Raise e
  end.

Declare Scope py_scope.
Delimit Scope py_scope with py.
Notation "x <- m ;; k" := (bind m (fun x => k))
  (at level 100, m at next level, right associativity) : py_scope.
Notation "m ;;; k" := (bind m (fun _ => k))
  (at level 100, right associativity) : py_scope.

(** A calendar date.  A pandas [Timestamp] is modelled by its date: the
    explicit formats of [try_parse_date] carry no time of day. *)
Record date : Type := mkdate { year : Z; month : Z; day : Z }.

(** The values a cell of a table, or an entry of a row, can hold:
    text, [NaN] (the null of a text column), a timestamp, [NaT],
    a Python integer, or a number produced by [pd.to_numeric]. *)
Inductive value : Type :=
| VStr (s : string)
| VNaN
| VTimestamp (d : date)
| VNaT
| VInt (z : Z)
| VNum (q : Q).

(** [pd.isnull] / [pd.notnull] on a scalar. *)
Definition isnull (v : value) : bool :=
  match v with
  | VNaN | VNaT => true
  | _ => false
  end.

Definition notnull (v : value) : bool := negb (isnull v).

Global Instance date_eq_dec : EqDecision date.
Proof. solve_decision. Defined.

Global Instance Q_eq_dec : EqDecision Q.
Proof. solve_decision. Defined.

Global Instance value_eq_dec : EqDecision value.
Proof. solve_decision. Defined.

Global Instance exn_eq_dec : EqDecision exn.
Proof. solve_decision. Defined.

(** ** [pd.to_datetime(s, format=fmt)]

    The format is compiled to a regular expression, one group per
    directive, which must match the whole text; the matched fields are
    then checked against the calendar and the [Timestamp] range.  The
    matcher below follows the alternatives of each group in their order
    and backtracks like [re]. *)

Module Strptime.
Import Text.

Inductive directive : Type :=
| Dir_d            (* %d  day of the month *)
| Dir_m            (* %m  month number *)
| Dir_b            (* %b  abbreviated month name *)
| Dir_y            (* %y  year without century *)
| Dir_Y            (* %Y  year with century *)
| Lit (c : ascii). (* any other character of the format *)

Definition digit_val (c : ascii) : Z := Z.of_N (code c) - 48.

Definition lower (c : ascii) : ascii :=
  if in_range 65 90 c then ascii_of_N (code c + 32) else c.

Definition month_abbr : list (string * Z) :=
  [("jan", 1); ("feb", 2); ("mar", 3); ("apr", 4); ("may", 5); ("jun", 6);
   ("jul", 7); ("aug", 8); ("sep", 9); ("oct", 10); ("nov", 11); ("dec", 12)]%Z.

Definition guard {A : Type} (b : bool) (x : A) : list A :=
  if b then [x] else [].

(** The ways a directive can consume a prefix of [s], most preferred
    first: each is the field value and the remaining text. *)
Definition alternatives (d : directive) (s : string) : list (Z * string) :=
  match d, s with
  | Dir_d, String a (String b t) =>
      (* 3[0-1] | [1-2]\d | 0[1-9]  before  [1-9]  before  " [1-9]" *)
      guard ((Ascii.eqb a "3" && in_range 48 49 b)
             || (in_range 49 50 a && is_digit b)
             || (Ascii.eqb a "0" && in_range 49 57 b))
            (10 * digit_val a + digit_val b, t)%Z
      ++ guard (in_range 49 57 a) (digit_val a, String b t)
      ++ guard (Ascii.eqb a " " && in_range 49 57 b) (digit_val b, t)
  | Dir_d, String a EmptyString =>
      guard (in_range 49 57 a) (digit_val a, EmptyString)
  | Dir_m, String a (String b t) =>
      (* 1[0-2] | 0[1-9]  before  [1-9] *)
      guard ((Ascii.eqb a "1" && in_range 48 50 b)
             || (Ascii.eqb a "0" && in_range 49 57 b))
            (10 * digit_val a + digit_val b, t)%Z
      ++ guard (in_range 49 57 a) (digit_val a, String b t)
  | Dir_m, String a EmptyString =>
      guard (in_range 49 57 a) (digit_val a, EmptyString)
  | Dir_b, String a (String b (String c t)) =>
      (* the names are matched ignoring case *)
      let name := String (lower a) (String (lower b) (String (lower c) "")) in
      omap (fun '(n, m) => if String.eqb n name then Some (m, t) else None)
           month_abbr
  | Dir_y, String a (String b t) =>
      guard (is_digit a && is_digit b) (10 * digit_val a + digit_val b, t)%Z
  | Dir_Y, String a (String b (String c (String d t))) =>
      guard (is_digit a && is_digit b && is_digit c && is_digit d)
            (1000 * digit_val a + 100 * digit_val b
             + 10 * digit_val c + digit_val d, t)%Z
  | Lit c, String a t => guard (Ascii.eqb a c) (0%Z, t)
  | _, _ => []
  end.

(** Fields collected by a match: day, month, year. *)
Record fields : Type := mkfields { f_day : Z; f_month : Z; f_year : Z }.

(** [%y]: values 69-99 are years 1969-1999, values 0-68 are 2000-2068. *)
Definition pivot_year (y : Z) : Z :=
  if (y <=? 68)%Z then (2000 + y)%Z else (1900 + y)%Z.

Definition store (d : directive) (v : Z) (f : fields) : fields :=
  match d with
  | Dir_d => mkfields v (f_month f) (f_year f)
  | Dir_m | Dir_b => mkfields (f_day f) v (f_year f)
  | Dir_y => mkfields (f_day f) (f_month f) (pivot_year v)
  | Dir_Y => mkfields (f_day f) (f_month f) v
  | Lit _ => f
  end.

Fixpoint first_some {A B : Type} (k : A -> option B) (l : list A) : option B :=
  match l with
  | [] => None
  | x :: l' => match k x with Some y => Some y | None => first_some k l' end
  end.

(** The first complete match in backtracking order, if any. *)
Fixpoint fullmatch (fmt : list directive) (s : string) (f : fields)
  : option fields :=
  match fmt with
  | [] => match s with EmptyString => Some f | _ => None end
  | d :: fmt' =>
      first_some (fun '(v, rest) => fullmatch fmt' rest (store d v f))
                 (alternatives d s)
  end.

Definition is_leap (y : Z) : bool :=
  ((y mod 4 =? 0) && (negb (y mod 100 =? 0) || (y mod 400 =? 0)))%Z.

Definition days_in_month (y m : Z) : Z :=
  (if m =? 2 then (if is_leap y then 29 else 28)
   else if (m =? 4) || (m =? 6) || (m =? 9) || (m =? 11) then 30
   else 31)%Z.

Definition valid_date (d : date) : bool :=
  ((1 <=? year d) && (year d <=? 9999)
   && (1 <=? month d) && (month d <=? 12)
   && (1 <=? day d) && (day d <=? days_in_month (year d) (month d)))%Z.

Definition date_leb (a b : date) : bool :=
  ((year a <? year b)
   || ((year a =? year b)
       && ((month a <? month b)
           || ((month a =? month b) && (day a <=? day b)))))%Z.

(** Midnights representable by a nanosecond [Timestamp]:
    1677-09-22 to 2262-04-11. *)
Definition in_timestamp_range (d : date) : bool :=
  date_leb (mkdate 1677 9 22) d && date_leb d (mkdate 2262 4 11).

(** Fields absent from the format default to 1900-01-01. *)
Definition default_fields : fields := mkfields 1 1 1900.

Definition unparsed_msg (s : string) : string :=
  "time data " ++ py_repr s ++ " does not match format".

Definition to_datetime (s : string) (fmt : list directive) : result date :=
  match fullmatch fmt s default_fields with
  | None => Raise (ValueError (unparsed_msg s))
  | Some f =>
      let d := mkdate (f_year f) (f_month f) (f_day f) in
      if negb (valid_date d) then
        Raise (ValueError "day is out of range for month")
      else if negb (in_timestamp_range d) then
        Raise (ValueError "Out of bounds nanosecond timestamp")
      else Ok d
  end.

(** The five formats of the source, in the order of the source:
    ['%d-%b-%y', '%Y-%m-%d', '%d/%m/%Y', '%d-%m-%Y', '%m/%d/%Y']. *)
Definition fmt_d_b_y : list directive := [Dir_d; Lit "-"; Dir_b; Lit "-"; Dir_y].
Definition fmt_Y_m_d : list directive := [Dir_Y; Lit "-"; Dir_m; Lit "-"; Dir_d].
Definition fmt_d_m_Y_slash : list directive := [Dir_d; Lit "/"; Dir_m; Lit "/"; Dir_Y].
Definition fmt_d_m_Y_dash : list directive := [Dir_d; Lit "-"; Dir_m; Lit "-"; Dir_Y].
Definition fmt_m_d_Y_slash : list directive := [Dir_m; Lit "/"; Dir_d; Lit "/"; Dir_Y].

Definition formats : list (list directive) :=
  [fmt_d_b_y; fmt_Y_m_d; fmt_d_m_Y_slash; fmt_d_m_Y_dash; fmt_m_d_Y_slash].

End Strptime.

(** ** [int(x)] on a cell value *)

Module PyInt.
Import Text.

(** Whitespace accepted around an integer literal. *)
Definition is_int_space (c : ascii) : bool :=
  in_range 9 13 c || (code c =? 32)%N || (code c =? 133)%N || (code c =? 160)%N.

Definition digit_val (c : ascii) : Z := Z.of_N (code c) - 48.

(** Digits after the first one; a single underscore may separate two
    digits. *)
Fixpoint int_digits (acc : Z) (s : string) : option Z :=
  match s with
  | EmptyString => Some acc
  | String c t =>
      if is_digit c then int_digits (10 * acc + digit_val c)%Z t
      else if is_underscore c then
        match t with
        | String d t' =>
            if is_digit d then int_digits (10 * acc + digit_val d)%Z t'
            else None
        | EmptyString => None
        end
      else None
  end.

Definition int_literal (s : string) : option Z :=
  match s with
  | String c t => if is_digit c then int_digits (digit_val c) t else None
  | EmptyString => None
  end.

Definition signed_literal (s : string) : option Z :=
  match s with
  | String "+" t => int_literal t
  | String "-" t => Z.opp <$> int_literal t
  | _ => int_literal s
  end.

Definition count_digits (s : string) : nat :=
  String.length (filter_chars is_digit s).

(** The default of [sys.int_max_str_digits]; the message of the error
    for longer literals goes on with the digit count, left out here. *)
Definition max_str_digits : nat := 4300.

Definition invalid_literal (s : string) : exn :=
  ValueError ("invalid literal for int() with base 10: " ++ py_repr s).

(** [int(s)] for a text [s]. *)
Definition int_of_str (s : string) : result Z :=
  match signed_literal (rstrip_with is_int_space (lstrip_with is_int_space s)) with
  | Some z =>
      if Nat.ltb max_str_digits (count_digits s) then
        Raise (ValueError "Exceeds the limit (4300 digits) for integer string conversion")
      else Ok z
  | None => Raise (invalid_literal s)
  end.

(** Truncation towards zero, [int(x)] for a finite float. *)
Definition trunc (q : Q) : Z := Z.quot (Qnum q) (Zpos (Qden q)).

(** [int(v)] for a cell value. *)
Definition int (v : value) : result Z :=
  match v with
  | VStr s => int_of_str s
  | VInt z => Ok z
  | VNum q => Ok (trunc q)
  | VNaN => Raise (ValueError "cannot convert float NaN to integer")
  | VNaT => Raise (TypeError "int() argument must be a string, a bytes-like object or a real number, not 'NaTType'")
  | VTimestamp _ => Raise (TypeError "int() argument must be a string, a bytes-like object or a real number, not 'Timestamp'")
  end.

End PyInt.

(** ** Tables

    A [DataFrame] read with [dtype=str]: column labels and rows of cells.
    A row handed out by [iterrows] is a [Series]: its entries carry the
    column labels. *)

Record DataFrame : Type := mkDataFrame {
  columns : list string;
  rows : list (list value)
}.

Definition Series : Type := list (string * value).

Module Frame.

(** Positions of a label among the column labels. *)
Fixpoint positions (label : string) (cols : list string) (i : nat) : list nat :=
  match cols with
  | [] => []
  | c :: cols' =>
      if String.eqb c label then i :: positions label cols' (S i)
      else positions label cols' (S i)
  end.

Definition cell (r : list value) (i : nat) : value := nth i r VNaN.

Definition ambiguous : exn :=
  ValueError "The truth value of a Series is ambiguous. Use a.empty, a.bool(), a.item(), a.any() or a.all().".

(** [df[label]] used as one column of scalars.  An absent label is a
    [KeyError]; a label carried by several columns selects a table, on
    which the scalar operations of the task raise. *)
Definition get_column (df : DataFrame) (label : string) : result (list value) :=
  match positions label (columns df) 0 with
  | [] => Raise (KeyError label)
  | [i] => Ok (map (fun r => cell r i) (rows df))
  | _ => Raise ambiguous
  end.

Fixpoint set_cell (r : list value) (i : nat) (v : value) : list value :=
  match r, i with
  | [], _ => []
  | _ :: r', O => v :: r'
  | x :: r', S i' => x :: set_cell r' i' v
  end.

(** [df[label] = new_values] for a label that names one column. *)
Definition set_column (df : DataFrame) (label : string) (vs : list value)
  : DataFrame :=
  match positions label (columns df) 0 with
  | [i] => mkDataFrame (columns df)
             (zip_with (fun r v => set_cell r i v) (rows df) vs)
  | _ => df
  end.

(** [df[labels]]: for each requested label, in order, every column
    carrying it. *)
Definition select (df : DataFrame) (labels : list string) : DataFrame :=
  let idx := flat_map (fun l => positions l (columns df) 0) labels in
  mkDataFrame (map (fun i => nth i (columns df) "") idx)
              (map (fun r => map (cell r) idx) (rows df)).

(** [df.iterrows()], without the index. *)
Definition iterrows (df : DataFrame) : list Series :=
  map (fun r => zip_with pair (columns df) r) (rows df).

(** [row[label]] read as a scalar. *)
Definition get (row : Series) (label : string) : result value :=
  match filter (fun e => String.eqb (fst e) label = true) row with
  | [] => Raise (KeyError label)
  | [e] => Ok (snd e)
  | _ => Raise ambiguous
  end.

End Frame.

(** ** The two record tables of [upload/models.py] *)

Module BookingData.

Record t : Type := mk {
  bank_code : Z;
  txn_date : value;
  irctc_order_no : Z;
  bank_booking_ref_no : Z;
  booking_amount : value;
  credited_date : value;
  cus_account_no : option string;
  remarks : option string
}.

Definition key (r : t) : Z * Z := (irctc_order_no r, bank_booking_ref_no r).

(** [unique_bookingdata_constraint] *)
Definition unique_fields (r : t) : value * Z * value * Z * Z :=
  (txn_date r, bank_code r, credited_date r,
   irctc_order_no r, bank_booking_ref_no r).

End BookingData.

Module RefundData.

Record t : Type := mk {
  bank_code : Z;
  refund_date : value;
  irctc_order_no : Z;
  bank_booking_ref_no : Z;
  bank_refund_ref_no : Z;
  refund_amount : value;
  debited_date : value;
  cus_account_no : option string;
  remarks : option string
}.

Definition key (r : t) : Z * Z := (irctc_order_no r, bank_booking_ref_no r).

(** [unique_refunddata_constraint] *)
Definition unique_fields (r : t) : value * Z * value * Z * Z * Z :=
  (refund_date r, bank_code r, debited_date r,
   irctc_order_no r, bank_booking_ref_no r, bank_refund_ref_no r).

End RefundData.

(** ** Library entry points

    What the task calls in pandas, pyexcel_ods, json and the ORM.  Each is
    a function of its arguments; a reader or a converter may raise. *)

Record Library : Type := mkLibrary {
  (** [file_content.decode(errors='ignore')] *)
  decode_ignore : list Byte.byte -> string;
  (** [pd.read_csv(StringIO(text), delimiter=d, dtype=str)] *)
  read_csv : string -> ascii -> result DataFrame;
  (** [pd.read_excel(BytesIO(content), engine='openpyxl', dtype=str)] *)
  read_excel : list Byte.byte -> result DataFrame;
  (** first sheet of [ods_get_data], first row as header, [to_csv(index=False)] *)
  ods_to_csv : list Byte.byte -> result string;
  (** [pd.json_normalize(json.loads(content)).to_csv(index=False)] *)
  json_to_csv : list Byte.byte -> result string;
  (** [pd.to_datetime(s, errors='coerce')]: a date, or [None] for [NaT] *)
  to_datetime_coerce : string -> result (option date);
  (** [pd.to_numeric(v, errors='coerce')] *)
  to_numeric_coerce : value -> result value;
  (** conversion of the field values of a new row by the ORM on save *)
  prepare_booking : BookingData.t -> result unit;
  prepare_refund : RefundData.t -> result unit
}.

(** ** Static registries *)

Record Mapping : Type := mkMapping {
  mapping_columns : list string;                 (* mappings['columns'] *)
  column_mapping : list (string * string)        (* mappings['column_mapping'] *)
}.

Definition BANK_CODE_MAPPING : gmap string Z :=
  list_to_map [("hdfc", 101%Z); ("icici", 102%Z); ("karur_vysya", 40%Z)].

Definition hdfc_mappings : gmap string Mapping :=
  list_to_map
    [("booking",
      mkMapping ["IRCTC ORDER NO."; "BANK BOOKING REF.NO."; "BOOKING AMOUNT"]
        [("IRCTC ORDER NO.", "irctc_order_no");
         ("BANK BOOKING REF.NO.", "bank_booking_ref_no");
         ("BOOKING AMOUNT", "sale_amount")]);
     ("refund",
      mkMapping ["REFUND ORDER NO."; "REFUND AMOUNT"; "CREDITED ON"]
        [("REFUND ORDER NO.", "irctc_order_no");
         ("REFUND AMOUNT", "sale_amount");
         ("CREDITED ON", "date")])].

Definition icici_mappings : gmap string Mapping :=
  list_to_map
    [("booking",
      mkMapping ["ORDER NO."; "REFERENCE NO."; "AMOUNT"]
        [("ORDER NO.", "irctc_order_no");
         ("REFERENCE NO.", "bank_booking_ref_no");
         ("AMOUNT", "sale_amount");
         ("BRANCH CODE", "branch_code");
         ("OTHER COLUMN", "other_column")]);
     ("refund",
      mkMapping ["ORDER NO."; "REFUND AMOUNT"; "CREDIT DATE"]
        [("ORDER NO.", "irctc_order_no");
         ("REFUND AMOUNT", "sale_amount");
         ("CREDIT DATE", "date");
         ("BRANCH CODE", "branch_code");
         ("OTHER COLUMN", "other_column")])].

Definition karur_vysya_mappings : gmap string Mapping :=
  list_to_map
    [("booking",
      mkMapping ["TXN DATE"; "IRCTC ORDER NO."; "BANK BOOKING REF.NO.";
                 "BOOKING AMOUNT"; "CREDITED ON"]
        [("TXNDATE", "txn_date");
         ("IRCTCORDERNO", "irctc_order_no");
         ("BANKBOOKINGREFNO", "bank_booking_ref_no");
         ("BOOKINGAMOUNT", "booking_amount");
         ("CREDITEDON", "credited_date")]);
     ("refund",
      mkMapping ["REFUND DATE"; "IRCTC ORDER NO."; "BANK BOOKING REF.NO.";
                 "BANK REFUND REF.NO."; "REFUND AMOUNT"; "DEBITED ON"]
        [("REFUNDDATE", "refund_date");
         ("IRCTCORDERNO", "irctc_order_no");
         ("BANKBOOKINGREFNO", "bank_booking_ref_no");
         ("BANKREFUNDREFNO", "bank_refund_ref_no");
         ("REFUNDAMOUNT", "refund_amount");
         ("DEBITEDON", "debited_date")])].

(** The module-level dictionary as it is when the module is loaded.  The
    task overwrites the ['columns'] entry of the mapping it uses, so the
    dictionary is part of the state (see [State]). *)
Definition BANK_MAPPINGS : gmap string (gmap string Mapping) :=
  list_to_map [("hdfc", hdfc_mappings); ("icici", icici_mappings);
               ("karur_vysya", karur_vysya_mappings)].

(** What a run can change: the mapping dictionary and the two tables. *)
Record State : Type := mkState {
  registry : gmap string (gmap string Mapping);
  bookings : list BookingData.t;
  refunds : list RefundData.t
}.

Definition initial_state : State := mkState BANK_MAPPINGS [] [].

(** The two row-level [logging.info] messages of the loops. *)
Inductive row_event : Type :=
| Saved (irctc_order_no : Z)
| Skipped (irctc_order_no : Z).

Global Instance row_event_eq_dec : EqDecision row_event.
Proof. solve_decision. Defined.

(** ** The task *)

Section Task.

Context (lib : Library).

Import Text.

(** *** [try_parse_date] *)

(** The loop over the explicit formats: the first format that parses
    returns; a [ValueError] moves on to the next format. *)
Fixpoint try_formats (date_str : string) (fmts : list (list Strptime.directive))
  : result (option date) :=
  match fmts with
  | [] => Ok None
  | fmt :: fmts' =>
      match Strptime.to_datetime date_str fmt with
      | Ok d => Ok (Some d)
      | Raise (ValueError _) => try_formats date_str fmts'
      | Raise e => Raise e
      end
  end.

Definition type_name (v : value) : string :=
  match v with
  | VStr _ => "str"
  | VNaN => "float"
  | VTimestamp _ => "Timestamp"
  | VNaT => "NaTType"
  | VInt _ => "int"
  | VNum _ => "float"
  end.

Definition no_strip (v : value) : exn :=
  AttributeError (py_repr (type_name v) ++ " object has no attribute 'strip'").

Definition try_parse_date (date_str : value) : result value :=
  if isnull date_str then Ok VNaT
  else
    match date_str with
    | VStr s =>
        if String.eqb (strip s) "" then Ok VNaT
        else
          let s := strip s in
          (r <- try_formats s Strptime.formats ;;
           match r with
           | Some d => Ok (VTimestamp d)
           | None =>
               match to_datetime_coerce lib s with
               | Ok (Some d) => Ok (VTimestamp d)
               | Ok None => Ok VNaT
               | Raise _ => Ok VNaT
               end
           end)%py
    | v => Raise (no_strip v)
    end.

(** [series.apply(f)] *)
Fixpoint apply (f : value -> result value) (vs : list value)
  : result (list value) :=
  match vs with
  | [] => Ok []
  | v :: vs' => (w <- f v ;; ws <- apply f vs' ;; Ok (w :: ws))%py
  end.

(** *** The column normaliser (lines 145-146 and 155) *)

Definition clean_column (name : string) : string :=
  re_sub_nonword (strip name).

(** *** [BookingData.objects] and [RefundData.objects] *)

(** [objects.filter(irctc_order_no=o, bank_booking_ref_no=b).exists()] *)
Definition booking_exists (tb : list BookingData.t) (o b : Z) : bool :=
  existsb (fun r => bool_decide (BookingData.key r = (o, b))) tb.

Definition refund_exists (tb : list RefundData.t) (o b : Z) : bool :=
  existsb (fun r => bool_decide (RefundData.key r = (o, b))) tb.

Definition duplicate_entry : exn :=
  IntegrityError "UNIQUE constraint failed".

(** [objects.create(...)]: the row is appended unless the ORM rejects a
    field value or the uniqueness constraint of the model is violated. *)
Definition booking_create (tb : list BookingData.t) (r : BookingData.t)
  : result (list BookingData.t) :=
  (prepare_booking lib r ;;;
   if existsb (fun r' => bool_decide (BookingData.unique_fields r'
                                      = BookingData.unique_fields r)) tb
   then Raise duplicate_entry
   else Ok (tb ++ [r])%list)%py.

Definition refund_create (tb : list RefundData.t) (r : RefundData.t)
  : result (list RefundData.t) :=
  (prepare_refund lib r ;;;
   if existsb (fun r' => bool_decide (RefundData.unique_fields r'
                                      = RefundData.unique_fields r)) tb
   then Raise duplicate_entry
   else Ok (tb ++ [r])%list)%py.

(** *** The row loops (lines 182-198 and 212-230) *)

(** [int(row[k]) if pd.notnull(row[k]) else 0] *)
Definition coerce_reference (row : Series) (k : string) : result Z :=
  (v <- Frame.get row k ;;
   if notnull v then (v' <- Frame.get row k ;; PyInt.int v') else Ok 0%Z)%py.

(** Lines 183-185, the coercion step of a booking row.  [iterrows]
    hands out a copy of the row, so the three assignments to [row[...]]
    are local: their values are the ones read back by [filter] and
    [create]. *)
Definition booking_coerce (row : Series) : result (Z * Z * value) :=
  (irctc_order_no <- coerce_reference row "irctc_order_no" ;;
   bank_booking_ref_no <- coerce_reference row "bank_booking_ref_no" ;;
   amount <- Frame.get row "booking_amount" ;;
   booking_amount <- to_numeric_coerce lib amount ;;
   Ok (irctc_order_no, bank_booking_ref_no, booking_amount))%py.

(** One iteration of the booking loop: coercion, existence check on
    the two reference numbers, then skip or create. *)
Definition booking_row (bank_code : Z) (row : Series) (tb : list BookingData.t)
  : result (list BookingData.t * row_event) :=
  (coerced <- booking_coerce row ;;
   let '(irctc_order_no, bank_booking_ref_no, booking_amount) := coerced in
   if booking_exists tb irctc_order_no bank_booking_ref_no then
     Ok (tb, Skipped irctc_order_no)
   else
     txn_date <- Frame.get row "txn_date" ;;
     credited_date <- Frame.get row "credited_date" ;;
     tb' <- booking_create tb
              (BookingData.mk bank_code txn_date irctc_order_no
                 bank_booking_ref_no booking_amount credited_date None None) ;;
     Ok (tb', Saved irctc_order_no))%py.

(** Lines 213-216, the coercion step of a refund row. *)
Definition refund_coerce (row : Series) : result (Z * Z * Z * value) :=
  (irctc_order_no <- coerce_reference row "irctc_order_no" ;;
   bank_booking_ref_no <- coerce_reference row "bank_booking_ref_no" ;;
   bank_refund_ref_no <- coerce_reference row "bank_refund_ref_no" ;;
   amount <- Frame.get row "refund_amount" ;;
   refund_amount <- to_numeric_coerce lib amount ;;
   Ok (irctc_order_no, bank_booking_ref_no, bank_refund_ref_no,
       refund_amount))%py.

Definition refund_row (bank_code : Z) (row : Series) (tb : list RefundData.t)
  : result (list RefundData.t * row_event) :=
  (coerced <- refund_coerce row ;;
   let '(irctc_order_no, bank_booking_ref_no, bank_refund_ref_no,
         refund_amount) := coerced in
   if refund_exists tb irctc_order_no bank_booking_ref_no then
     Ok (tb, Skipped irctc_order_no)
   else
     refund_date <- Frame.get row "refund_date" ;;
     debited_date <- Frame.get row "debited_date" ;;
     tb' <- refund_create tb
              (RefundData.mk bank_code refund_date irctc_order_no
                 bank_booking_ref_no bank_refund_ref_no refund_amount
                 debited_date None None) ;;
     Ok (tb', Saved irctc_order_no))%py.

(** A loop over the rows with a table as its state.  An exception in a
    row stops the loop; the rows persisted before it stay. *)
Fixpoint row_loop {T : Type}
  (body : Series -> list T -> result (list T * row_event))
  (rs : list Series) (tb : list T) : result unit * list T * list row_event :=
  match rs with
  | [] => (Ok tt, tb, [])
  | row :: rs' =>
      match body row tb with
      | Raise e => (Raise e, tb, [])
      | Ok (tb', ev) =>
          let '(r, tb'', evs) := row_loop body rs' tb' in
          (r, tb'', ev :: evs)
      end
  end.

Definition booking_loop (bank_code : Z) :=
  row_loop (booking_row bank_code).

Definition refund_loop (bank_code : Z) :=
  row_loop (refund_row bank_code).

(** *** The two branches after the column filter *)

(** [df[label] = df[label].apply(try_parse_date)] *)
Definition parse_date_column (df : DataFrame) (label : string)
  : result DataFrame :=
  (c <- Frame.get_column df label ;;
   c' <- apply try_parse_date c ;;
   Ok (Frame.set_column df label c'))%py.

(** [BANK_CODE_MAPPING.get(bank_name)] followed by [if not bank_code]. *)
Definition bank_code_of (bank_name : string) : result Z :=
  match BANK_CODE_MAPPING !! bank_name with
  | Some code =>
      if (code =? 0)%Z
      then Raise (ValueError ("No bank code found for bank: " ++ bank_name))
      else Ok code
  | None => Raise (ValueError ("No bank code found for bank: " ++ bank_name))
  end.

(** Lines 171-180: what precedes the booking loop. *)
Definition booking_prepare (df : DataFrame) (bank_name : string)
  : result (DataFrame * Z) :=
  (df1 <- parse_date_column df "txn_date" ;;
   df2 <- parse_date_column df1 "credited_date" ;;
   bank_code <- bank_code_of bank_name ;;
   Ok (df2, bank_code))%py.

(** Lines 201-210: what precedes the refund loop. *)
Definition refund_prepare (df : DataFrame) (bank_name : string)
  : result (DataFrame * Z) :=
  (df1 <- parse_date_column df "refund_date" ;;
   df2 <- parse_date_column df1 "debited_date" ;;
   bank_code <- bank_code_of bank_name ;;
   Ok (df2, bank_code))%py.

Definition booking_branch (df : DataFrame) (bank_name : string)
  (tb : list BookingData.t)
  : result unit * list BookingData.t * list row_event :=
  match booking_prepare df bank_name with
  | Raise e => (Raise e, tb, [])
  | Ok (df', bank_code) => booking_loop bank_code (Frame.iterrows df') tb
  end.

Definition refund_branch (df : DataFrame) (bank_name : string)
  (tb : list RefundData.t)
  : result unit * list RefundData.t * list row_event :=
  match refund_prepare df bank_name with
  | Raise e => (Raise e, tb, [])
  | Ok (df', bank_code) => refund_loop bank_code (Frame.iterrows df') tb
  end.

(** *** [convert_to_csv] *)

Definition unsupported_format (file_name : string) : exn :=
  ValueError ("Unsupported file format: " ++ file_name).

(** The body of the [try] of [convert_to_csv]. *)
Definition convert_body (content : list Byte.byte) (file_name : string)
  : result string :=
  if endswith file_name ".ods" then ods_to_csv lib content
  else if endswith file_name ".json" then json_to_csv lib content
  else Raise (unsupported_format file_name).

(** The handler of [convert_to_csv] logs the exception and returns the
    empty text. *)
Definition convert_to_csv (content : list Byte.byte) (file_name : string)
  : string :=
  match convert_body content file_name with
  | Ok csv => csv
  | Raise _ => ""
  end.

(** *** [process_uploaded_files] *)

Definition possible_delimiters : list ascii :=
  [","; ";"; "009"; "|"; " "; "."; "_"]%char.

(** [next((d for d in possible_delimiters if d in file_str), ',')] *)
Definition pick_delimiter (file_str : string) : ascii :=
  match filter (fun d => contains_char d file_str = true) possible_delimiters with
  | d :: _ => d
  | [] => ","%char
  end.

(** Lines 129-142: the loader. *)
Definition load_table (file_content : list Byte.byte) (file_name : string)
  : result DataFrame :=
  if endswith file_name ".csv" || endswith file_name ".txt" then
    let file_str := decode_ignore lib file_content in
    read_csv lib file_str (pick_delimiter file_str)
  else if endswith file_name ".xlsx" || endswith file_name ".xls" then
    read_excel lib file_content
  else
    read_csv lib (convert_to_csv file_content file_name) ","%char.

(** Lines 145-146. *)
Definition clean_columns (df : DataFrame) : DataFrame :=
  mkDataFrame (map clean_column (columns df)) (rows df).

Definition py_list_repr (l : list string) : string :=
  "[" ++ String.concat ", " (map py_repr l) ++ "]".

Definition no_mapping (bank_name transaction_type : string) : exn :=
  ValueError ("No mapping found for bank: " ++ bank_name
              ++ ", transaction type: " ++ transaction_type).

Definition missing_columns_error (missing : list string) : exn :=
  ValueError ("Missing columns in DataFrame: " ++ py_list_repr missing).

(** [BANK_MAPPINGS.get(bank_name, {}).get(transaction_type)] *)
Definition get_mappings (reg : gmap string (gmap string Mapping))
  (bank_name transaction_type : string) : option Mapping :=
  match reg !! bank_name with
  | Some per_bank => per_bank !! transaction_type
  | None => None
  end.

(** [mappings['columns'] = cleaned_mapping_columns], written through to
    the module-level dictionary. *)
Definition store_columns (reg : gmap string (gmap string Mapping))
  (bank_name transaction_type : string) (cleaned : list string)
  : gmap string (gmap string Mapping) :=
  match reg !! bank_name with
  | Some per_bank =>
      match per_bank !! transaction_type with
      | Some m =>
          <[bank_name :=
              <[transaction_type := mkMapping cleaned (column_mapping m)]> per_bank]> reg
      | None => reg
      end
  | None => reg
  end.

(** Lines 160-167: the missing-column check and the column filter. *)
Definition require_columns (df : DataFrame) (required_columns : list string)
  : result DataFrame :=
  match filter (fun c => c ∉ columns df) required_columns with
  | [] => Ok (Frame.select df required_columns)
  | missing => Raise (missing_columns_error missing)
  end.

(** Lines 150-157: the mapping of the bank and transaction type, its
    cleaned column names, and the dictionary after the cleaned names
    are written back. *)
Definition resolve_mappings (reg : gmap string (gmap string Mapping))
  (bank_name transaction_type : string)
  : result (list string) * gmap string (gmap string Mapping) :=
  match get_mappings reg bank_name transaction_type with
  | None => (Raise (no_mapping bank_name transaction_type), reg)
  | Some mappings =>
      let cleaned := map clean_column (mapping_columns mappings) in
      (Ok cleaned, store_columns reg bank_name transaction_type cleaned)
  end.

(** Lines 170-230: the branch of the transaction type. *)
Definition persist (df : DataFrame) (bank_name transaction_type : string)
  (bk : list BookingData.t) (rf : list RefundData.t)
  : result unit * list BookingData.t * list RefundData.t * list row_event :=
  if String.eqb transaction_type "booking" then
    let '(r, bk', evs) := booking_branch df bank_name bk in (r, bk', rf, evs)
  else if String.eqb transaction_type "refund" then
    let '(r, rf', evs) := refund_branch df bank_name rf in (r, bk, rf', evs)
  else (Ok tt, bk, rf, []).

(** The body of the [try] of the task: the outcome of the body, the
    state it leaves and the row events it logged. *)
Definition process_body (file_content : list Byte.byte)
  (file_name bank_name transaction_type : string) (st : State)
  : result unit * State * list row_event :=
  match load_table file_content file_name with
  | Raise e => (Raise e, st, [])
  | Ok df =>
      let df := clean_columns df in
      let '(cleaned, reg) :=
        resolve_mappings (registry st) bank_name transaction_type in
      match (required_columns <- cleaned ;;
             require_columns df required_columns)%py with
      | Raise e => (Raise e, mkState reg (bookings st) (refunds st), [])
      | Ok df =>
          let '(r, bk, rf, evs) :=
            persist df bank_name transaction_type (bookings st) (refunds st) in
          (r, mkState reg bk rf, evs)
      end
  end.

Definition success_message (file_name : string) : string :=
  "Successfully processed " ++ file_name.

Definition failure_message (file_name : string) (e : exn) : string :=
  "Failed to process " ++ file_name ++ ": " ++ str_exn e.

(** What a run hands back and leaves behind. *)
Record Outcome : Type := mkOutcome {
  status : string;
  final : State;
  events : list row_event
}.

(** The task: the [try] body, then either the success message or, in
    the [except Exception] handler, the failure message. *)
Definition process_uploaded_files (file_content : list Byte.byte)
  (file_name bank_name transaction_type : string) (st : State) : Outcome :=
  let '(r, st', evs) :=
    process_body file_content file_name bank_name transaction_type st in
  match r with
  | Ok _ => mkOutcome (success_message file_name) st' evs
  | Raise e => mkOutcome (failure_message file_name e) st' evs
  end.

End Task.

(** ** A concrete library for plain delimited text

    An instance of [Library] on which the task can be run: a reader for
    delimited text without quoting, the default missing-value markers of
    [read_csv], and decimal literals for [to_numeric].  The spreadsheet,
    ODS and JSON readers are absent from it and raise. *)

Module PlainText.
Import Text.

(** Bytes of the ASCII range decode to themselves; anything else is
    dropped by [errors='ignore']. *)
Definition decode_ascii (bs : list Byte.byte) : string :=
  filter_chars (fun c => (code c <? 128)%N) (string_of_list_byte bs).

Fixpoint split_acc (d : ascii) (s : string) (cur : string) : list string :=
  match s with
  | EmptyString => [rev_string "" cur]
  | String c t =>
      if Ascii.eqb c d then rev_string "" cur :: split_acc d t ""
      else split_acc d t (String c cur)
  end.

Definition split (d : ascii) (s : string) : list string := split_acc d s "".

Definition newline : ascii := "010"%char.

Definition lines (text : string) : list string :=
  filter (fun l => l ≠ "") (split newline text).

Definition na_values : list string :=
  [""; "#N/A"; "#N/A N/A"; "#NA"; "-1.#IND"; "-1.#QNAN"; "-NaN"; "-nan";
   "1.#IND"; "1.#QNAN"; "<NA>"; "N/A"; "NA"; "NULL"; "NaN"; "None";
   "n/a"; "nan"; "null"].

Definition cell_of (s : string) : value :=
  if bool_decide (s ∈ na_values) then VNaN else VStr s.

Fixpoint pad (n : nat) (r : list value) : list value :=
  match n, r with
  | O, _ => []
  | S n', [] => VNaN :: pad n' []
  | S n', v :: r' => v :: pad n' r'
  end.

Definition read_plain (text : string) (d : ascii) : result DataFrame :=
  match lines text with
  | [] => Raise (EmptyDataError "No columns to parse from file")
  | header :: data =>
      let cols := split d header in
      let rs := map (fun l => map cell_of (split d l)) data in
      if forallb (fun r => Nat.leb (length r) (length cols)) rs
      then Ok (mkDataFrame cols (map (pad (length cols)) rs))
      else Raise (LibraryError "Error tokenizing data")
  end.

(** Digits of a decimal literal, as numerator and power of ten. *)
Fixpoint decimal_digits (s : string) (num : Z) (den : positive) (frac : bool)
  : option Q :=
  match s with
  | EmptyString => Some (Qmake num den)
  | String c t =>
      if is_digit c then
        decimal_digits t (10 * num + PyInt.digit_val c)%Z
                       (if frac then (10 * den)%positive else den) frac
      else if Ascii.eqb c "." && negb frac then decimal_digits t num den true
      else None
  end.

Definition decimal_literal (s : string) : option Q :=
  match s with
  | String "-" t => Qopp <$> decimal_digits t 0%Z 1%positive false
  | String "+" t => decimal_digits t 0%Z 1%positive false
  | _ => decimal_digits s 0%Z 1%positive false
  end.

Definition to_numeric (v : value) : result value :=
  match v with
  | VStr s =>
      match (if Nat.ltb 0 (PyInt.count_digits s)
             then decimal_literal (strip s) else None) with
      | Some q => Ok (VNum q)
      | None => Ok VNaN
      end
  | VInt z => Ok (VInt z)
  | VNum q => Ok (VNum q)
  | VNaN | VNaT | VTimestamp _ => Ok VNaN
  end.

Definition absent {A B : Type} (what : string) : A -> result B :=
  fun _ => Raise (LibraryError (what ++ " is not available")).

Definition lib : Library :=
  {| decode_ignore := decode_ascii;
     read_csv := read_plain;
     read_excel := absent "openpyxl";
     ods_to_csv := absent "pyexcel_ods";
     json_to_csv := absent "json_normalize";
     to_datetime_coerce := fun _ => Ok None;
     to_numeric_coerce := to_numeric;
     prepare_booking := fun _ => Ok tt;
     prepare_refund := fun _ => Ok tt |}.

End PlainText.

(** ** Vocabulary of the statements *)

(** Decimal digits and the text they spell. *)
Definition digit_char (d : Z) : ascii := ascii_of_N (Z.to_N (48 + d)).

Fixpoint digits_text (ds : list Z) : string :=
  match ds with
  | [] => EmptyString
  | d :: ds' => String (digit_char d) (digits_text ds')
  end.

Definition is_decimal_digit (d : Z) : Prop := (0 <= d <= 9)%Z.

Definition decimal_value_from (acc : Z) (ds : list Z) : Z :=
  fold_left (fun a d => 10 * a + d)%Z ds acc.

Definition decimal_value (ds : list Z) : Z := decimal_value_from 0 ds.

(** An explicit format that does not parse a text. *)
Definition format_fails (s : string) (fmt : list Strptime.directive) : Prop :=
  exists e, Strptime.to_datetime s fmt = Raise e.

(** The outcome of the generic parse at the end of [try_parse_date]: its
    date, or [NaT] when it finds none or raises. *)
Definition generic_fallback (lib : Library) (s : string) : value :=
  match to_datetime_coerce lib s with
  | Ok (Some d) => VTimestamp d
  | Ok None | Raise _ => VNaT
  end.

Definition is_skipped (ev : row_event) : Prop :=
  match ev with
  | Skipped _ => True
  | Saved _ => False
  end.

(** A row is settled in a table when the loop body skips it there. *)
Definition settled {T : Type}
  (body : Series -> list T -> result (list T * row_event))
  (row : Series) (tb : list T) : Prop :=
  exists o, body row tb = Ok (tb, Skipped o).

(** What a run reads of the mapping dictionary: the cleaned required
    columns of the bank and transaction type, if there is a mapping. *)
Definition cleaned_view (reg : gmap string (gmap string Mapping))
  (bank_name transaction_type : string) : option (list string) :=
  (fun m => map clean_column (mapping_columns m))
    <$> get_mappings reg bank_name transaction_type.

(** The dictionaries the module can hold: the one it is loaded with, and
    the one any run leaves. *)
Inductive registry_reachable (lib : Library)
  : gmap string (gmap string Mapping) -> Prop :=
| reachable_loaded : registry_reachable lib BANK_MAPPINGS
| reachable_run reg file_content file_name bank_name transaction_type bk rf :
    registry_reachable lib reg ->
    registry_reachable lib
      (registry (final (process_uploaded_files lib file_content file_name
                          bank_name transaction_type (mkState reg bk rf)))).

(** The part of a run that touches the tables, as a function of what
    the run reads of the mapping dictionary. *)
Definition table_run (lib : Library) (file_content : list Byte.byte)
  (file_name bank_name transaction_type : string)
  (view : option (list string))
  (bk : list BookingData.t) (rf : list RefundData.t)
  : result unit * list BookingData.t * list RefundData.t * list row_event :=
  match load_table lib file_content file_name with
  | Raise e => (Raise e, bk, rf, [])
  | Ok df =>
      match view with
      | None => (Raise (no_mapping bank_name transaction_type), bk, rf, [])
      | Some required_columns =>
          match require_columns (clean_columns df) required_columns with
          | Raise e => (Raise e, bk, rf, [])
          | Ok df' => persist lib df' bank_name transaction_type bk rf
          end
      end
  end.

(** The records a run added to a table: new rows at the end, with
    pairwise distinct reference pairs, none of them already in the table. *)
Definition fresh_extension {T : Type} (key : T -> Z * Z)
  (before after : list T) : Prop :=
  exists created,
    after = (before ++ created)%list
    /\ NoDup (map key created)
    /\ Forall (fun x => key x ∉ map key before) created.

(** ** Sample inputs *)

(** The file of the end-to-end scenario: the five Karur Vysya booking
    headers and one data row. *)
Definition karur_booking_csv : list Byte.byte :=
  list_byte_of_string
    ("TXN DATE,IRCTC ORDER NO.,BANK BOOKING REF.NO.,BOOKING AMOUNT,CREDITED ON"
     ++ String PlainText.newline
          "01-Jan-24,12345,67890,1500.50,05-Jan-24").

(** The table of that file as it would be after renaming the columns to
    the field names of [column_mapping]. *)
Definition karur_booking_renamed : DataFrame :=
  mkDataFrame
    ["txn_date"; "irctc_order_no"; "bank_booking_ref_no"; "booking_amount";
     "credited_date"]
    [[VStr "01-Jan-24"; VStr "12345"; VStr "67890"; VStr "1500.50";
      VStr "05-Jan-24"]].

(** Two rows whose reference fields are both missing. *)
Definition blank_reference_rows : DataFrame :=
  mkDataFrame
    ["txn_date"; "irctc_order_no"; "bank_booking_ref_no"; "booking_amount";
     "credited_date"]
    [[VStr "01-Jan-24"; VNaN; VNaN; VStr "10.00"; VStr "05-Jan-24"];
     [VStr "02-Jan-24"; VNaN; VNaN; VStr "20.00"; VStr "06-Jan-24"]].

(** ** Vocabulary of the further properties *)

(** The number of "saved" messages among the row events. *)
Fixpoint saved_count (evs : list row_event) : nat :=
  match evs with
  | [] => 0
  | Saved _ :: evs' => S (saved_count evs')
  | Skipped _ :: evs' => saved_count evs'
  end.



(** The literal "/" of a format. *)
Definition is_slash_literal (d : Strptime.directive) : bool :=
  match d with
  | Strptime.Lit c => Ascii.eqb c "/"
  | _ => false
  end.

(** * Properties *)

(** ** Text helpers *)

Section TextFacts.
Import Text.

Lemma all_chars_filter (p : ascii -> bool) (s : string) :
  all_chars p (filter_chars p s) = true.
Proof.
  induction s as [|c t IH]; simpl; [reflexivity|].
  destruct (p c) eqn:Hc; simpl; [rewrite Hc|]; exact IH.
Qed.

Lemma filter_chars_all (p : ascii -> bool) (s : string) :
  all_chars p s = true -> filter_chars p s = s.
Proof.
  induction s as [|c t IH]; simpl; [reflexivity|].
  intros [Hc Ht]%andb_prop. rewrite Hc, IH; auto.
Qed.

Lemma all_chars_impl (p q : ascii -> bool) (s : string) :
  (forall c, p c = true -> q c = true) ->
  all_chars p s = true -> all_chars q s = true.
Proof.
  intros Hpq. induction s as [|c t IH]; simpl; [reflexivity|].
  intros [Hc Ht]%andb_prop. rewrite (Hpq _ Hc), IH; auto.
Qed.

Lemma lstrip_with_none (sp : ascii -> bool) (s : string) :
  all_chars (fun c => negb (sp c)) s = true -> lstrip_with sp s = s.
Proof.
  destruct s as [|c t]; simpl; [reflexivity|].
  intros [Hc _]%andb_prop. apply negb_true_iff in Hc. now rewrite Hc.
Qed.

Lemma rstrip_with_none (sp : ascii -> bool) (s : string) :
  all_chars (fun c => negb (sp c)) s = true -> rstrip_with sp s = s.
Proof.
  induction s as [|c t IH]; simpl; [reflexivity|].
  intros [Hc Ht]%andb_prop. apply negb_true_iff in Hc.
  rewrite (IH Ht), Hc. now destruct t.
Qed.

Lemma word_not_space (c : ascii) : is_word c = true -> is_space c = false.
Proof.
  destruct c as [[] [] [] [] [] [] [] []]; vm_compute; congruence.
Qed.

Lemma strip_word_chars (s : string) :
  all_chars is_word s = true -> strip s = s.
Proof.
  intros H. unfold strip.
  assert (Hs : all_chars (fun c => negb (is_space c)) s = true).
  { revert H. apply all_chars_impl. intros c Hc.
    now rewrite (word_not_space _ Hc). }
  now rewrite (lstrip_with_none _ _ Hs), (rstrip_with_none _ _ Hs).
Qed.

Lemma re_sub_nonword_filter (s : string) :
  re_sub_nonword s = filter_chars is_word s.
Proof. induction s as [|c t IH]; simpl; [|rewrite IH]; reflexivity. Qed.

Lemma clean_column_all_word (name : string) :
  all_chars is_word (clean_column name) = true.
Proof. unfold clean_column. rewrite re_sub_nonword_filter. apply all_chars_filter. Qed.

(** Cleaning a cleaned name changes nothing: the in-place update of the
    mapping's columns is harmless for later runs. *)
Lemma clean_column_idempotent (name : string) :
  clean_column (clean_column name) = clean_column name.
Proof.
  pose proof (clean_column_all_word name) as H.
  unfold clean_column at 1.
  rewrite (strip_word_chars _ H), re_sub_nonword_filter.
  now apply filter_chars_all.
Qed.

Lemma map_clean_column_idempotent (l : list string) :
  map clean_column (map clean_column l) = map clean_column l.
Proof.
  induction l as [|x l IH]; simpl; [reflexivity|].
  now rewrite clean_column_idempotent, IH.
Qed.

End TextFacts.

(** ** The column normaliser *)

(** C2, as stated, fails: an underscore is neither a letter nor a digit,
    and the normaliser keeps it. *)
Lemma clean_column_keeps_underscore :
  ~ (forall name : string,
        Text.all_chars Text.is_alnum (clean_column name) = true).
Proof. intros H. specialize (H "TXN_DATE"). vm_compute in H. discriminate H. Qed.

(** C2 (amended): for every column name, of a loaded table or of a
    mapping, the normaliser strips leading and trailing whitespace and
    then keeps exactly the word characters, that is letters, digits and
    the underscore; every character of the normalised name is a letter,
    a digit or an underscore. *)
Theorem clean_column_word_characters (name : string) :
  clean_column name = Text.filter_chars Text.is_word (Text.strip name)
  /\ Text.all_chars
       (fun c => Text.is_alnum c || Text.is_underscore c)
       (clean_column name) = true
  /\ (forall df : DataFrame,
         columns (clean_columns df) = map clean_column (columns df)).
Proof.
  split; [|split].
  - unfold clean_column. apply re_sub_nonword_filter.
  - apply clean_column_all_word.
  - reflexivity.
Qed.

Example clean_column_header :
  clean_column " IRCTC ORDER NO. " = "IRCTCORDERNO".
Proof. reflexivity. Qed.

(** ** Integer coercion of the reference fields *)

Example int_of_str_plain : PyInt.int_of_str "12345" = Ok 12345%Z.
Proof. reflexivity. Qed.
Example int_of_str_padded : PyInt.int_of_str " +1_0 " = Ok 10%Z.
Proof. reflexivity. Qed.
Example int_of_str_double_underscore :
  PyInt.int_of_str "1__0" = Raise (PyInt.invalid_literal "1__0").
Proof. reflexivity. Qed.

Section IntFacts.
Import Text PyInt.

Lemma digit_char_cases (d : Z) :
  is_decimal_digit d ->
  is_digit (digit_char d) = true
  /\ PyInt.digit_val (digit_char d) = d
  /\ is_int_space (digit_char d) = false.
Proof.
  unfold is_decimal_digit. intros H.
  assert (d = 0 \/ d = 1 \/ d = 2 \/ d = 3 \/ d = 4 \/ d = 5 \/ d = 6
          \/ d = 7 \/ d = 8 \/ d = 9)%Z as Hd by lia.
  repeat (destruct Hd as [-> | Hd]); try subst d; vm_compute; auto.
Qed.

Lemma int_digits_text (ds : list Z) (acc : Z) :
  Forall is_decimal_digit ds ->
  int_digits acc (digits_text ds) = Some (decimal_value_from acc ds).
Proof.
  intros H. revert acc. induction H as [|d ds Hd _ IH]; intros acc; simpl.
  - reflexivity.
  - destruct (digit_char_cases d Hd) as (-> & -> & _). apply IH.
Qed.

Lemma digits_text_no_space (ds : list Z) :
  Forall is_decimal_digit ds ->
  all_chars (fun c => negb (is_int_space c)) (digits_text ds) = true.
Proof.
  induction 1 as [|d ds Hd _ IH]; simpl; [reflexivity|].
  destruct (digit_char_cases d Hd) as (_ & _ & ->). exact IH.
Qed.

Lemma count_digits_text (ds : list Z) :
  Forall is_decimal_digit ds -> count_digits (digits_text ds) = length ds.
Proof.
  unfold count_digits. induction 1 as [|d ds Hd _ IH]; simpl; [reflexivity|].
  destruct (digit_char_cases d Hd) as (-> & _ & _). simpl. now rewrite IH.
Qed.

Lemma digit_char_not_sign (d : Z) :
  is_decimal_digit d -> digit_char d <> "+"%char /\ digit_char d <> "-"%char.
Proof.
  intros Hd. destruct (digit_char_cases d Hd) as (H & _ & _).
  split; intros E; rewrite E in H; vm_compute in H; discriminate H.
Qed.

Lemma int_of_str_digits (ds : list Z) :
  ds <> [] -> Forall is_decimal_digit ds -> length ds <= max_str_digits ->
  int_of_str (digits_text ds) = Ok (decimal_value ds).
Proof.
  intros Hne Hds Hlen. unfold int_of_str.
  pose proof (digits_text_no_space ds Hds) as Hsp.
  rewrite (lstrip_with_none _ _ Hsp), (rstrip_with_none _ _ Hsp).
  rewrite (count_digits_text ds Hds).
  destruct (Nat.ltb_spec max_str_digits (length ds)) as [Hlt|_]; [lia|].
  destruct ds as [|d ds]; [congruence|].
  inversion Hds as [|? ? Hd Hds']; subst.
  destruct (digit_char_not_sign d Hd) as [Hplus Hminus].
  assert (Hlit : signed_literal (digits_text (d :: ds))
                 = int_literal (digits_text (d :: ds))).
  { simpl. destruct (digit_char d) as [[] [] [] [] [] [] [] []] eqn:E;
      try reflexivity; exfalso; [apply Hplus | apply Hminus]; reflexivity. }
  rewrite Hlit. simpl.
  destruct (digit_char_cases d Hd) as (-> & -> & _).
  rewrite (int_digits_text ds d Hds').
  unfold decimal_value, decimal_value_from. simpl.
  now replace (10 * 0 + d)%Z with d by lia.
Qed.

(** [int] of a text returns an integer or raises [ValueError]. *)
Lemma int_of_str_cases (s : string) :
  (exists z, int_of_str s = Ok z) \/ (exists m, int_of_str s = Raise (ValueError m)).
Proof.
  unfold int_of_str, invalid_literal.
  destruct (signed_literal _); [destruct (Nat.ltb _ _)|]; eauto.
Qed.

End IntFacts.

(** C3, as stated, fails: a reference field holding non-numeric text
    makes the coercion raise. *)
Lemma coerce_reference_non_numeric_raises :
  coerce_reference [("irctc_order_no", VStr "abc")] "irctc_order_no"
  = Raise (ValueError "invalid literal for int() with base 10: 'abc'").
Proof. reflexivity. Qed.

Example coerce_reference_empty_text_raises :
  coerce_reference [("irctc_order_no", VStr "")] "irctc_order_no"
  = Raise (ValueError "invalid literal for int() with base 10: ''").
Proof. reflexivity. Qed.

Example coerce_reference_missing_column :
  coerce_reference [("TXNDATE", VStr "01-Jan-24")] "irctc_order_no"
  = Raise (KeyError "irctc_order_no").
Proof. reflexivity. Qed.

(** C3 (amended): for every row reaching the coercion step, a reference
    field (IRCTC order number, bank booking reference number, bank refund
    reference number) coerces to zero when its value is null, and to what
    [int] makes of its text when it holds text: the integer it denotes
    when the text is an integer literal, in particular for every non-empty
    run of at most 4300 decimal digits, and otherwise a [ValueError],
    which the coercion lets through. *)
Theorem coerce_reference_cases (row : Series) (k : string) (v : value) :
  Frame.get row k = Ok v ->
  (isnull v = true -> coerce_reference row k = Ok 0%Z)
  /\ (forall s, v = VStr s ->
        coerce_reference row k = PyInt.int_of_str s
        /\ ((exists z, coerce_reference row k = Ok z)
            \/ (exists m, coerce_reference row k = Raise (ValueError m))))
  /\ (forall ds, v = VStr (digits_text ds) ->
        ds <> [] -> Forall is_decimal_digit ds ->
        length ds <= PyInt.max_str_digits ->
        coerce_reference row k = Ok (decimal_value ds)).
Proof.
  intros Hget. unfold coerce_reference. rewrite Hget. simpl.
  split; [|split].
  - intros Hnull. unfold notnull. now rewrite Hnull.
  - intros s ->. simpl. split; [reflexivity|]. apply int_of_str_cases.
  - intros ds -> Hne Hds Hlen. simpl. now apply int_of_str_digits.
Qed.

Lemma coerce_reference_cases_witness :
  coerce_reference [("irctc_order_no", VStr "12345")] "irctc_order_no"
  = Ok (decimal_value [1; 2; 3; 4; 5]%Z)
  /\ coerce_reference [("bank_booking_ref_no", VNaN)] "bank_booking_ref_no"
     = Ok 0%Z.
Proof.
  split.
  - refine (proj2 (proj2 (coerce_reference_cases
              [("irctc_order_no", VStr "12345")] "irctc_order_no"
              (VStr "12345") _)) [1; 2; 3; 4; 5]%Z _ _ _ _).
    + reflexivity.
    + reflexivity.
    + discriminate.
    + repeat constructor; unfold is_decimal_digit; lia.
    + vm_compute. lia.
  - refine (proj1 (coerce_reference_cases
              [("bank_booking_ref_no", VNaN)] "bank_booking_ref_no" VNaN _) _);
      reflexivity.
Defined.

(** ** The date helper *)

Example to_datetime_abbr :
  Strptime.to_datetime "01-Jan-24" Strptime.fmt_d_b_y = Ok (mkdate 2024 1 1).
Proof. reflexivity. Qed.

Example to_datetime_feb30 :
  Strptime.to_datetime "30-02-2024" Strptime.fmt_d_m_Y_dash
  = Raise (ValueError "day is out of range for month").
Proof. reflexivity. Qed.

Section DateFacts.

Context (lib : Library).

Lemma to_datetime_raises_value_error (s : string) fmt (e : exn) :
  Strptime.to_datetime s fmt = Raise e -> exists m, e = ValueError m.
Proof.
  unfold Strptime.to_datetime.
  destruct (Strptime.fullmatch fmt s _) as [f|].
  - destruct (negb (Strptime.valid_date _)).
    + intros [= <-]. eauto.
    + destruct (negb (Strptime.in_timestamp_range _)); [|discriminate].
      intros [= <-]. eauto.
  - intros [= <-]. eauto.
Qed.

Lemma try_formats_skips (s : string) fmt fmts :
  format_fails s fmt -> try_formats s (fmt :: fmts) = try_formats s fmts.
Proof.
  intros [e He]. simpl. rewrite He.
  destruct (to_datetime_raises_value_error _ _ _ He) as [m ->]. reflexivity.
Qed.

Lemma try_formats_first (s : string) pre fmt post (d : date) :
  Forall (format_fails s) pre ->
  Strptime.to_datetime s fmt = Ok d ->
  try_formats s (pre ++ fmt :: post)%list = Ok (Some d).
Proof.
  intros Hpre Hfmt. induction Hpre as [|f pre Hf _ IH].
  - simpl. now rewrite Hfmt.
  - change (((f :: pre) ++ fmt :: post)%list)
      with (f :: (pre ++ fmt :: post)%list).
    now rewrite try_formats_skips.
Qed.

Lemma try_formats_none (s : string) fmts :
  Forall (format_fails s) fmts -> try_formats s fmts = Ok None.
Proof.
  induction 1 as [|f fmts Hf _ IH]; [reflexivity|].
  now rewrite try_formats_skips.
Qed.

Lemma try_formats_returns (s : string) fmts :
  exists r, try_formats s fmts = Ok r.
Proof.
  induction fmts as [|f fmts [r IH]]; simpl; [eauto|].
  destruct (Strptime.to_datetime s f) as [d|e] eqn:E; [eauto|].
  destruct (to_datetime_raises_value_error _ _ _ E) as [m ->]. eauto.
Qed.

Lemma try_parse_date_blank (s : string) :
  Text.strip s = "" -> try_parse_date lib (VStr s) = Ok VNaT.
Proof. intros H. unfold try_parse_date. cbn [isnull]. now rewrite H. Qed.

Lemma try_parse_date_text (s : string) :
  Text.strip s <> "" ->
  try_parse_date lib (VStr s)
  = match try_formats (Text.strip s) Strptime.formats with
    | Ok (Some d) => Ok (VTimestamp d)
    | Ok None => Ok (generic_fallback lib (Text.strip s))
    | Raise e => Raise e
    end.
Proof.
  intros H. unfold try_parse_date, generic_fallback. cbn [isnull].
  destruct (String.eqb_spec (Text.strip s) "") as [E|_]; [contradiction|].
  destruct (try_formats (Text.strip s) Strptime.formats) as [[d|]|e];
    cbn [bind]; try reflexivity.
  destruct (to_datetime_coerce lib (Text.strip s)) as [[d|]|e]; reflexivity.
Qed.

End DateFacts.

(** C6: the five explicit formats are tried in the order DD-Mon-YY,
    YYYY-MM-DD, DD/MM/YYYY, DD-MM-YYYY, MM/DD/YYYY and the first that
    parses gives the result; the generic parse is consulted only when
    all five fail; empty and whitespace-only text parse to the missing
    value; the four literals parse to 2024-01-01. *)
Theorem try_parse_date_format_order (lib : Library) :
  Strptime.formats
  = [Strptime.fmt_d_b_y; Strptime.fmt_Y_m_d; Strptime.fmt_d_m_Y_slash;
     Strptime.fmt_d_m_Y_dash; Strptime.fmt_m_d_Y_slash]
  /\ (forall s pre fmt post d,
         Text.strip s <> "" ->
         Strptime.formats = (pre ++ fmt :: post)%list ->
         Forall (format_fails (Text.strip s)) pre ->
         Strptime.to_datetime (Text.strip s) fmt = Ok d ->
         try_parse_date lib (VStr s) = Ok (VTimestamp d))
  /\ (forall s,
         Text.strip s <> "" ->
         Forall (format_fails (Text.strip s)) Strptime.formats ->
         try_parse_date lib (VStr s) = Ok (generic_fallback lib (Text.strip s)))
  /\ (forall s, Text.strip s = "" -> try_parse_date lib (VStr s) = Ok VNaT)
  /\ try_parse_date lib (VStr "") = Ok VNaT
  /\ try_parse_date lib (VStr "   ") = Ok VNaT
  /\ try_parse_date lib (VStr "01-Jan-24") = Ok (VTimestamp (mkdate 2024 1 1))
  /\ try_parse_date lib (VStr "2024-01-01") = Ok (VTimestamp (mkdate 2024 1 1))
  /\ try_parse_date lib (VStr "01/01/2024") = Ok (VTimestamp (mkdate 2024 1 1))
  /\ try_parse_date lib (VStr "01-01-2024") = Ok (VTimestamp (mkdate 2024 1 1)).
Proof.
  repeat split.
  - intros s pre fmt post d Hs Hsplit Hpre Hfmt.
    rewrite (try_parse_date_text lib s Hs), Hsplit.
    now rewrite (try_formats_first _ pre fmt post d Hpre Hfmt).
  - intros s Hs Hall.
    rewrite (try_parse_date_text lib s Hs).
    now rewrite (try_formats_none _ _ Hall).
  - apply try_parse_date_blank.
Qed.

Lemma try_parse_date_format_order_witness :
  try_parse_date PlainText.lib (VStr " 01/02/2024 ")
  = Ok (VTimestamp (mkdate 2024 2 1))
  /\ try_parse_date PlainText.lib (VStr "next week") = Ok VNaT.
Proof.
  destruct (try_parse_date_format_order PlainText.lib)
    as (_ & Hfirst & Hnone & _).
  split.
  - apply (Hfirst " 01/02/2024 " [Strptime.fmt_d_b_y; Strptime.fmt_Y_m_d]
             Strptime.fmt_d_m_Y_slash
             [Strptime.fmt_d_m_Y_dash; Strptime.fmt_m_d_Y_slash]).
    + discriminate.
    + reflexivity.
    + repeat constructor; eexists; reflexivity.
    + reflexivity.
  - apply (Hnone "next week").
    + discriminate.
    + repeat constructor; eexists; reflexivity.
Defined.

(** C10: on every text and on the null input the date helper returns a
    parsed date or the missing marker; it raises nothing. *)
Theorem try_parse_date_total (lib : Library) :
  (forall s : string,
      try_parse_date lib (VStr s) = Ok VNaT
      \/ exists d, try_parse_date lib (VStr s) = Ok (VTimestamp d))
  /\ try_parse_date lib VNaN = Ok VNaT
  /\ try_parse_date lib VNaT = Ok VNaT.
Proof.
  split; [|split; reflexivity].
  intros s. destruct (String.eqb_spec (Text.strip s) "") as [E|E].
  - left. now apply try_parse_date_blank.
  - rewrite (try_parse_date_text lib s E).
    destruct (try_formats_returns (Text.strip s) Strptime.formats) as [[d|] ->].
    + right. eauto.
    + unfold generic_fallback.
      destruct (to_datetime_coerce lib _) as [[d|]|e]; eauto.
Qed.

Example try_parse_date_not_text (lib : Library) :
  try_parse_date lib (VInt 7)
  = Raise (AttributeError "'int' object has no attribute 'strip'").
Proof. reflexivity. Qed.

(** ** The row loops *)

Section LoopFacts.

Context {T : Type} (key : T -> Z * Z).
Context (body : Series -> list T -> result (list T * row_event)).

(** What the two loop bodies have in common. *)
Hypothesis body_step :
  forall row tb tb' ev,
    body row tb = Ok (tb', ev) ->
    (tb' = tb /\ is_skipped ev)
    \/ (exists r, tb' = (tb ++ [r])%list /\ key r ∉ map key tb).
Hypothesis body_settles :
  forall row tb tb' ev, body row tb = Ok (tb', ev) -> settled body row tb'.
Hypothesis settled_mono :
  forall row tb ext, settled body row tb -> settled body row (tb ++ ext)%list.

Lemma row_loop_created (rs : list Series) :
  forall tb r tb1 evs,
    row_loop body rs tb = (r, tb1, evs) ->
    exists created,
      tb1 = (tb ++ created)%list
      /\ NoDup (map key created)
      /\ Forall (fun x => key x ∉ map key tb) created.
Proof.
  induction rs as [|row rs IH]; intros tb r tb1 evs; simpl.
  - intros [= <- <- <-]. exists []. rewrite app_nil_r.
    repeat split; constructor.
  - destruct (body row tb) as [[tb' ev]|e] eqn:Hb.
    + destruct (row_loop body rs tb') as [[r' tb''] evs'] eqn:Hl.
      intros [= <- <- <-].
      destruct (IH _ _ _ _ Hl) as (created & -> & Hnd & Hfresh).
      destruct (body_step _ _ _ _ Hb) as [[-> _]|(x & -> & Hx)].
      * exists created. auto.
      * exists (x :: created). rewrite <- app_assoc. simpl.
        split; [reflexivity|]. split.
        -- constructor; [|exact Hnd].
           rewrite list_elem_of_In, in_map_iff. intros (y & Hy & Hin).
           rewrite Forall_forall in Hfresh.
           apply (Hfresh y); [now apply list_elem_of_In|].
           rewrite list_elem_of_In, map_app, in_app_iff.
           right. simpl. left. congruence.
        -- constructor; [exact Hx|].
           rewrite Forall_forall in Hfresh |- *. intros y Hy Hin.
           apply (Hfresh y Hy).
           rewrite list_elem_of_In, map_app, in_app_iff.
           left. now apply list_elem_of_In.
    + intros [= <- <- <-]. exists []. rewrite app_nil_r.
      repeat split; constructor.
Qed.

Lemma row_loop_again (rs : list Series) :
  forall tb r tb1 evs,
    row_loop body rs tb = (r, tb1, evs) ->
    exists evs2,
      row_loop body rs tb1 = (r, tb1, evs2)
      /\ Forall is_skipped evs2
      /\ (r = Ok tt -> length evs2 = length rs).
Proof.
  induction rs as [|row rs IH]; intros tb r tb1 evs; simpl.
  - intros [= <- <- <-]. exists []. repeat split; constructor.
  - destruct (body row tb) as [[tb' ev]|e] eqn:Hb.
    + destruct (row_loop body rs tb') as [[r' tb''] evs'] eqn:Hl.
      intros [= <- <- <-].
      destruct (IH _ _ _ _ Hl) as (evs2 & Hagain & Hskip & Hlen).
      destruct (row_loop_created rs _ _ _ _ Hl) as (created & -> & _).
      destruct (settled_mono row tb' created (body_settles _ _ _ _ Hb))
        as [o Ho].
      rewrite Ho, Hagain. exists (Skipped o :: evs2).
      split; [reflexivity|]. split; [constructor; [exact I|exact Hskip]|].
      intros Hr. simpl. now rewrite (Hlen Hr).
    + intros [= <- <- <-]. rewrite Hb. exists [].
      split; [reflexivity|]. split; [constructor|discriminate].
Qed.

End LoopFacts.

Section PersisterFacts.

Context (lib : Library).

Lemma booking_exists_spec (tb : list BookingData.t) (o b : Z) :
  booking_exists tb o b = true <-> (o, b) ∈ map BookingData.key tb.
Proof.
  unfold booking_exists. rewrite existsb_exists, list_elem_of_In, in_map_iff.
  split; intros (x & H1 & H2); exists x.
  - apply bool_decide_eq_true in H2. auto.
  - split; [exact H2|]. now apply bool_decide_eq_true.
Qed.

Lemma refund_exists_spec (tb : list RefundData.t) (o b : Z) :
  refund_exists tb o b = true <-> (o, b) ∈ map RefundData.key tb.
Proof.
  unfold refund_exists. rewrite existsb_exists, list_elem_of_In, in_map_iff.
  split; intros (x & H1 & H2); exists x.
  - apply bool_decide_eq_true in H2. auto.
  - split; [exact H2|]. now apply bool_decide_eq_true.
Qed.

Lemma booking_exists_app tb ext o b :
  booking_exists tb o b = true -> booking_exists (tb ++ ext) o b = true.
Proof. unfold booking_exists. rewrite existsb_app. now intros ->. Qed.

Lemma refund_exists_app tb ext o b :
  refund_exists tb o b = true -> refund_exists (tb ++ ext) o b = true.
Proof. unfold refund_exists. rewrite existsb_app. now intros ->. Qed.

(** The two outcomes of a booking row that does not raise. *)
Lemma booking_row_cases code row tb tb' ev :
  booking_row lib code row tb = Ok (tb', ev) ->
  exists o b amount,
    booking_coerce lib row = Ok (o, b, amount)
    /\ ((booking_exists tb o b = true /\ tb' = tb /\ ev = Skipped o)
        \/ (booking_exists tb o b = false /\ ev = Saved o
            /\ exists r, tb' = (tb ++ [r])%list /\ BookingData.key r = (o, b))).
Proof.
  unfold booking_row.
  destruct (booking_coerce lib row) as [[[o b] amount]|e]; [|discriminate].
  cbn [bind]. intros H. exists o, b, amount. split; [reflexivity|].
  destruct (booking_exists tb o b) eqn:Hex.
  - injection H as <- <-. now left.
  - right. revert H.
    destruct (Frame.get row "txn_date") as [t|]; [|discriminate].
    destruct (Frame.get row "credited_date") as [c|]; [|discriminate].
    cbn [bind]. unfold booking_create.
    destruct (prepare_booking lib _); [|discriminate]. cbn [bind].
    destruct (existsb _ tb); [discriminate|]. cbn [bind].
    intros [= <- <-]. repeat split. eexists. split; reflexivity.
Qed.

Lemma booking_row_skip code row tb o b amount :
  booking_coerce lib row = Ok (o, b, amount) ->
  booking_exists tb o b = true ->
  booking_row lib code row tb = Ok (tb, Skipped o).
Proof. intros Hc Hex. unfold booking_row. rewrite Hc. cbn [bind]. now rewrite Hex. Qed.

Lemma refund_row_cases code row tb tb' ev :
  refund_row lib code row tb = Ok (tb', ev) ->
  exists o b f amount,
    refund_coerce lib row = Ok (o, b, f, amount)
    /\ ((refund_exists tb o b = true /\ tb' = tb /\ ev = Skipped o)
        \/ (refund_exists tb o b = false /\ ev = Saved o
            /\ exists r, tb' = (tb ++ [r])%list /\ RefundData.key r = (o, b))).
Proof.
  unfold refund_row.
  destruct (refund_coerce lib row) as [[[[o b] f] amount]|e]; [|discriminate].
  cbn [bind]. intros H. exists o, b, f, amount. split; [reflexivity|].
  destruct (refund_exists tb o b) eqn:Hex.
  - injection H as <- <-. now left.
  - right. revert H.
    destruct (Frame.get row "refund_date") as [t|]; [|discriminate].
    destruct (Frame.get row "debited_date") as [c|]; [|discriminate].
    cbn [bind]. unfold refund_create.
    destruct (prepare_refund lib _); [|discriminate]. cbn [bind].
    destruct (existsb _ tb); [discriminate|]. cbn [bind].
    intros [= <- <-]. repeat split. eexists. split; reflexivity.
Qed.

Lemma refund_row_skip code row tb o b f amount :
  refund_coerce lib row = Ok (o, b, f, amount) ->
  refund_exists tb o b = true ->
  refund_row lib code row tb = Ok (tb, Skipped o).
Proof. intros Hc Hex. unfold refund_row. rewrite Hc. cbn [bind]. now rewrite Hex. Qed.

End PersisterFacts.

Section LoopInstances.

Context (lib : Library).

Lemma fresh_extension_refl {T : Type} (key : T -> Z * Z) (tb : list T) :
  fresh_extension key tb tb.
Proof.
  exists []. rewrite app_nil_r. repeat split; constructor.
Qed.

Lemma booking_row_step code row tb tb' ev :
  booking_row lib code row tb = Ok (tb', ev) ->
  (tb' = tb /\ is_skipped ev)
  \/ (exists r, tb' = (tb ++ [r])%list
                /\ BookingData.key r ∉ map BookingData.key tb).
Proof.
  intros H.
  destruct (booking_row_cases lib _ _ _ _ _ H)
    as (o & b & a & _ & [(_ & -> & ->)|(Hex & -> & r & -> & Hk)]).
  - left. split; [reflexivity|exact I].
  - right. exists r. split; [reflexivity|]. rewrite Hk.
    rewrite <- booking_exists_spec. now rewrite Hex.
Qed.

Lemma booking_row_settles code row tb tb' ev :
  booking_row lib code row tb = Ok (tb', ev) ->
  settled (booking_row lib code) row tb'.
Proof.
  intros H.
  destruct (booking_row_cases lib _ _ _ _ _ H)
    as (o & b & a & Hc & [(Hex & -> & ->)|(Hex & -> & r & -> & Hk)]);
    exists o; apply (booking_row_skip lib _ _ _ _ _ _ Hc); [exact Hex|].
  apply booking_exists_spec.
  rewrite list_elem_of_In, map_app, in_app_iff. right. left. exact Hk.
Qed.

Lemma booking_row_settled_mono code row tb ext :
  settled (booking_row lib code) row tb ->
  settled (booking_row lib code) row (tb ++ ext)%list.
Proof.
  intros [o H].
  destruct (booking_row_cases lib _ _ _ _ _ H)
    as (o' & b & a & Hc & [(Hex & _ & [= ->])|(_ & [=] & _)]).
  exists o'. apply (booking_row_skip lib _ _ _ _ _ _ Hc).
  now apply booking_exists_app.
Qed.

Lemma refund_row_step code row tb tb' ev :
  refund_row lib code row tb = Ok (tb', ev) ->
  (tb' = tb /\ is_skipped ev)
  \/ (exists r, tb' = (tb ++ [r])%list
                /\ RefundData.key r ∉ map RefundData.key tb).
Proof.
  intros H.
  destruct (refund_row_cases lib _ _ _ _ _ H)
    as (o & b & f & a & _ & [(_ & -> & ->)|(Hex & -> & r & -> & Hk)]).
  - left. split; [reflexivity|exact I].
  - right. exists r. split; [reflexivity|]. rewrite Hk.
    rewrite <- refund_exists_spec. now rewrite Hex.
Qed.

Lemma refund_row_settles code row tb tb' ev :
  refund_row lib code row tb = Ok (tb', ev) ->
  settled (refund_row lib code) row tb'.
Proof.
  intros H.
  destruct (refund_row_cases lib _ _ _ _ _ H)
    as (o & b & f & a & Hc & [(Hex & -> & ->)|(Hex & -> & r & -> & Hk)]);
    exists o; apply (refund_row_skip lib _ _ _ _ _ _ _ Hc); [exact Hex|].
  apply refund_exists_spec.
  rewrite list_elem_of_In, map_app, in_app_iff. right. left. exact Hk.
Qed.

Lemma refund_row_settled_mono code row tb ext :
  settled (refund_row lib code) row tb ->
  settled (refund_row lib code) row (tb ++ ext)%list.
Proof.
  intros [o H].
  destruct (refund_row_cases lib _ _ _ _ _ H)
    as (o' & b & f & a & Hc & [(Hex & _ & [= ->])|(_ & [=] & _)]).
  exists o'. apply (refund_row_skip lib _ _ _ _ _ _ _ Hc).
  now apply refund_exists_app.
Qed.

Lemma booking_loop_created code rs tb r tb1 evs :
  booking_loop lib code rs tb = (r, tb1, evs) ->
  fresh_extension BookingData.key tb tb1.
Proof.
  apply (row_loop_created BookingData.key (booking_row lib code)
           (booking_row_step code)).
Qed.

Lemma booking_loop_again code rs tb r tb1 evs :
  booking_loop lib code rs tb = (r, tb1, evs) ->
  exists evs2,
    booking_loop lib code rs tb1 = (r, tb1, evs2)
    /\ Forall is_skipped evs2
    /\ (r = Ok tt -> length evs2 = length rs).
Proof.
  apply (row_loop_again BookingData.key (booking_row lib code)
           (booking_row_step code) (booking_row_settles code)
           (booking_row_settled_mono code)).
Qed.

Lemma refund_loop_created code rs tb r tb1 evs :
  refund_loop lib code rs tb = (r, tb1, evs) ->
  fresh_extension RefundData.key tb tb1.
Proof.
  apply (row_loop_created RefundData.key (refund_row lib code)
           (refund_row_step code)).
Qed.

Lemma refund_loop_again code rs tb r tb1 evs :
  refund_loop lib code rs tb = (r, tb1, evs) ->
  exists evs2,
    refund_loop lib code rs tb1 = (r, tb1, evs2)
    /\ Forall is_skipped evs2
    /\ (r = Ok tt -> length evs2 = length rs).
Proof.
  apply (row_loop_again RefundData.key (refund_row lib code)
           (refund_row_step code) (refund_row_settles code)
           (refund_row_settled_mono code)).
Qed.

End LoopInstances.

(** ** From the loops to the task *)

Section RunFacts.

Context (lib : Library).

Lemma apply_length f vs ws : apply f vs = Ok ws -> length ws = length vs.
Proof.
  revert ws. induction vs as [|v vs IH]; intros ws; simpl.
  - now intros [= <-].
  - destruct (f v); [|discriminate]. cbn [bind].
    destruct (apply f vs) as [ws'|]; [|discriminate]. cbn [bind].
    intros [= <-]. simpl. now rewrite (IH ws').
Qed.

Lemma get_column_length df label c :
  Frame.get_column df label = Ok c -> length c = length (rows df).
Proof.
  unfold Frame.get_column.
  destruct (Frame.positions _ _ _) as [|i [|? ?]]; try discriminate.
  intros [= <-]. apply length_map.
Qed.

Lemma parse_date_column_rows df label df' :
  parse_date_column lib df label = Ok df' ->
  length (rows df') = length (rows df).
Proof.
  unfold parse_date_column.
  destruct (Frame.get_column df label) as [c|] eqn:Hc; [|discriminate].
  cbn [bind]. destruct (apply _ c) as [c'|] eqn:Ha; [|discriminate].
  cbn [bind]. intros [= <-]. unfold Frame.set_column.
  destruct (Frame.positions _ _ _) as [|i [|? ?]]; try reflexivity.
  cbn [rows]. rewrite length_zip_with.
  rewrite (apply_length _ _ _ Ha), (get_column_length _ _ _ Hc). lia.
Qed.

Lemma booking_prepare_rows df bank df' code :
  booking_prepare lib df bank = Ok (df', code) ->
  length (Frame.iterrows df') = length (rows df).
Proof.
  unfold booking_prepare, Frame.iterrows. rewrite length_map.
  destruct (parse_date_column lib df _) as [df1|] eqn:H1; [|discriminate].
  cbn [bind].
  destruct (parse_date_column lib df1 _) as [df2|] eqn:H2; [|discriminate].
  cbn [bind]. destruct (bank_code_of bank); [|discriminate]. cbn [bind].
  intros [= <- _].
  now rewrite (parse_date_column_rows _ _ _ H2), (parse_date_column_rows _ _ _ H1).
Qed.

Lemma refund_prepare_rows df bank df' code :
  refund_prepare lib df bank = Ok (df', code) ->
  length (Frame.iterrows df') = length (rows df).
Proof.
  unfold refund_prepare, Frame.iterrows. rewrite length_map.
  destruct (parse_date_column lib df _) as [df1|] eqn:H1; [|discriminate].
  cbn [bind].
  destruct (parse_date_column lib df1 _) as [df2|] eqn:H2; [|discriminate].
  cbn [bind]. destruct (bank_code_of bank); [|discriminate]. cbn [bind].
  intros [= <- _].
  now rewrite (parse_date_column_rows _ _ _ H2), (parse_date_column_rows _ _ _ H1).
Qed.

Lemma booking_branch_created df bank tb r tb1 evs :
  booking_branch lib df bank tb = (r, tb1, evs) ->
  fresh_extension BookingData.key tb tb1.
Proof.
  unfold booking_branch.
  destruct (booking_prepare lib df bank) as [[df' code]|e].
  - apply booking_loop_created.
  - intros [= <- <- <-]. apply fresh_extension_refl.
Qed.

Lemma booking_branch_again df bank tb r tb1 evs :
  booking_branch lib df bank tb = (r, tb1, evs) ->
  exists evs2,
    booking_branch lib df bank tb1 = (r, tb1, evs2)
    /\ Forall is_skipped evs2
    /\ (r = Ok tt -> length evs2 = length (rows df)).
Proof.
  unfold booking_branch.
  destruct (booking_prepare lib df bank) as [[df' code]|e] eqn:Hp.
  - intros H. destruct (booking_loop_again lib _ _ _ _ _ _ H)
      as (evs2 & H2 & Hs & Hl).
    exists evs2. repeat split; auto. intros Hr.
    now rewrite (Hl Hr), (booking_prepare_rows _ _ _ _ Hp).
  - intros [= <- <- <-]. exists []. repeat split; auto. discriminate.
Qed.

Lemma refund_branch_created df bank tb r tb1 evs :
  refund_branch lib df bank tb = (r, tb1, evs) ->
  fresh_extension RefundData.key tb tb1.
Proof.
  unfold refund_branch.
  destruct (refund_prepare lib df bank) as [[df' code]|e].
  - apply refund_loop_created.
  - intros [= <- <- <-]. apply fresh_extension_refl.
Qed.

Lemma refund_branch_again df bank tb r tb1 evs :
  refund_branch lib df bank tb = (r, tb1, evs) ->
  exists evs2,
    refund_branch lib df bank tb1 = (r, tb1, evs2)
    /\ Forall is_skipped evs2
    /\ (r = Ok tt -> length evs2 = length (rows df)).
Proof.
  unfold refund_branch.
  destruct (refund_prepare lib df bank) as [[df' code]|e] eqn:Hp.
  - intros H. destruct (refund_loop_again lib _ _ _ _ _ _ H)
      as (evs2 & H2 & Hs & Hl).
    exists evs2. repeat split; auto. intros Hr.
    now rewrite (Hl Hr), (refund_prepare_rows _ _ _ _ Hp).
  - intros [= <- <- <-]. exists []. repeat split; auto. discriminate.
Qed.

Lemma persist_created df bank kind bk rf r bk1 rf1 evs :
  persist lib df bank kind bk rf = (r, bk1, rf1, evs) ->
  fresh_extension BookingData.key bk bk1
  /\ fresh_extension RefundData.key rf rf1.
Proof.
  unfold persist. destruct (String.eqb kind "booking").
  - destruct (booking_branch lib df bank bk) as [[r' bk'] evs'] eqn:Hb.
    intros [= <- <- <- <-]. split.
    + apply (booking_branch_created _ _ _ _ _ _ Hb).
    + apply fresh_extension_refl.
  - destruct (String.eqb kind "refund").
    + destruct (refund_branch lib df bank rf) as [[r' rf'] evs'] eqn:Hb.
      intros [= <- <- <- <-]. split.
      * apply fresh_extension_refl.
      * apply (refund_branch_created _ _ _ _ _ _ Hb).
    + intros [= <- <- <- <-]. split; apply fresh_extension_refl.
Qed.

Lemma persist_again df bank kind bk rf r bk1 rf1 evs :
  persist lib df bank kind bk rf = (r, bk1, rf1, evs) ->
  exists evs2,
    persist lib df bank kind bk1 rf1 = (r, bk1, rf1, evs2)
    /\ Forall is_skipped evs2.
Proof.
  unfold persist. destruct (String.eqb kind "booking").
  - destruct (booking_branch lib df bank bk) as [[r' bk'] evs'] eqn:Hb.
    intros [= <- <- <- <-].
    destruct (booking_branch_again _ _ _ _ _ _ Hb) as (evs2 & -> & Hs & _).
    eauto.
  - destruct (String.eqb kind "refund").
    + destruct (refund_branch lib df bank rf) as [[r' rf'] evs'] eqn:Hb.
      intros [= <- <- <- <-].
      destruct (refund_branch_again _ _ _ _ _ _ Hb) as (evs2 & -> & Hs & _).
      eauto.
    + intros [= <- <- <- <-]. exists []. split; [reflexivity|constructor].
Qed.

Lemma table_run_created fc fn bank kind view bk rf r bk1 rf1 evs :
  table_run lib fc fn bank kind view bk rf = (r, bk1, rf1, evs) ->
  fresh_extension BookingData.key bk bk1
  /\ fresh_extension RefundData.key rf rf1.
Proof.
  unfold table_run.
  destruct (load_table lib fc fn) as [df|e].
  - destruct view as [c|].
    + destruct (require_columns _ c) as [df'|e].
      * apply persist_created.
      * intros [= <- <- <- <-]. split; apply fresh_extension_refl.
    + intros [= <- <- <- <-]. split; apply fresh_extension_refl.
  - intros [= <- <- <- <-]. split; apply fresh_extension_refl.
Qed.

Lemma table_run_again fc fn bank kind view bk rf r bk1 rf1 evs :
  table_run lib fc fn bank kind view bk rf = (r, bk1, rf1, evs) ->
  exists evs2,
    table_run lib fc fn bank kind view bk1 rf1 = (r, bk1, rf1, evs2)
    /\ Forall is_skipped evs2.
Proof.
  unfold table_run.
  destruct (load_table lib fc fn) as [df|e].
  - destruct view as [c|].
    + destruct (require_columns _ c) as [df'|e].
      * apply persist_again.
      * intros [= <- <- <- <-]. exists []. split; [reflexivity|constructor].
    + intros [= <- <- <- <-]. exists []. split; [reflexivity|constructor].
  - intros [= <- <- <- <-]. exists []. split; [reflexivity|constructor].
Qed.

End RunFacts.

(** ** The mapping dictionary across runs *)

Section RegistryFacts.

Context (lib : Library).

Lemma resolve_mappings_view reg bank kind :
  fst (resolve_mappings reg bank kind)
  = match cleaned_view reg bank kind with
    | Some c => Ok c
    | None => Raise (no_mapping bank kind)
    end.
Proof.
  unfold resolve_mappings, cleaned_view.
  now destruct (get_mappings reg bank kind).
Qed.

(** Writing the cleaned names back changes nothing of what later runs
    read, for any bank and transaction type. *)
Lemma resolve_mappings_preserves_view reg bank kind bank' kind' :
  cleaned_view (snd (resolve_mappings reg bank kind)) bank' kind'
  = cleaned_view reg bank' kind'.
Proof.
  unfold resolve_mappings, cleaned_view.
  destruct (get_mappings reg bank kind) as [m|] eqn:Hm; [|reflexivity].
  cbn [snd]. unfold store_columns, get_mappings in *.
  destruct (reg !! bank) as [per_bank|] eqn:Hb; [|discriminate].
  rewrite Hm.
  destruct (decide (bank = bank')) as [<-|Hne].
  - rewrite lookup_insert_eq, Hb.
    destruct (decide (kind = kind')) as [<-|Hne'].
    + rewrite lookup_insert_eq, Hm. cbn.
      now rewrite map_clean_column_idempotent.
    + now rewrite lookup_insert_ne.
  - now rewrite lookup_insert_ne.
Qed.

(** A run is [table_run] on what it reads of the dictionary, and it
    leaves a dictionary that reads the same. *)
Lemma process_body_table_run fc fn bank kind st r bk rf evs :
  table_run lib fc fn bank kind
    (cleaned_view (registry st) bank kind) (bookings st) (refunds st)
  = (r, bk, rf, evs) ->
  exists reg',
    process_body lib fc fn bank kind st = (r, mkState reg' bk rf, evs)
    /\ (forall bank' kind',
           cleaned_view reg' bank' kind'
           = cleaned_view (registry st) bank' kind').
Proof.
  unfold table_run, process_body.
  destruct (load_table lib fc fn) as [df|e].
  - pose proof (resolve_mappings_view (registry st) bank kind) as Hv.
    pose proof (resolve_mappings_preserves_view (registry st) bank kind) as Hp.
    destruct (resolve_mappings (registry st) bank kind) as [cleaned reg'].
    cbn [fst snd] in Hv, Hp. subst cleaned.
    destruct (cleaned_view (registry st) bank kind) as [c|]; cbn [bind].
    + destruct (require_columns (clean_columns df) c) as [df'|e].
      * intros ->. eauto.
      * intros [= <- <- <- <-]. eauto.
    + intros [= <- <- <- <-]. eauto.
  - intros [= <- <- <- <-]. exists (registry st). split; [|reflexivity].
    now destruct st.
Qed.

Lemma process_body_registry fc fn bank kind st bank' kind' :
  cleaned_view (registry (process_body lib fc fn bank kind st).1.2) bank' kind'
  = cleaned_view (registry st) bank' kind'.
Proof.
  destruct (table_run lib fc fn bank kind
              (cleaned_view (registry st) bank kind) (bookings st) (refunds st))
    as [[[r bk] rf] evs] eqn:Ht.
  destruct (process_body_table_run _ _ _ _ _ _ _ _ _ Ht) as (reg' & -> & Hv).
  apply Hv.
Qed.

Lemma final_is_body_state fc fn bank kind st :
  final (process_uploaded_files lib fc fn bank kind st)
  = (process_body lib fc fn bank kind st).1.2.
Proof.
  unfold process_uploaded_files.
  destruct (process_body lib fc fn bank kind st) as [[[|e] st'] evs]; reflexivity.
Qed.

(** Every dictionary the module can hold reads like the loaded one. *)
Lemma registry_reachable_view reg :
  registry_reachable lib reg ->
  forall bank kind,
    cleaned_view reg bank kind = cleaned_view BANK_MAPPINGS bank kind.
Proof.
  induction 1 as [|reg fc fn b k bk rf _ IH]; [reflexivity|].
  intros bank kind.
  rewrite final_is_body_state, process_body_registry. apply IH.
Qed.

End RegistryFacts.

(** ** The task: status, determinism, resubmission, duplicates *)

(** The two exits of the task: when the body of the [try] completes the
    status is the success message naming the file, and when an exception
    leaves the body the status is the failure message naming the file
    and the text of that exception. *)
Lemma process_uploaded_files_status (lib : Library)
  (file_content : list Byte.byte) (file_name bank_name transaction_type : string)
  (st : State) :
  let body := process_body lib file_content file_name bank_name transaction_type st in
  let out := process_uploaded_files lib file_content file_name bank_name
               transaction_type st in
  match body.1.1 with
  | Ok _ => status out = "Successfully processed " ++ file_name
  | Raise e => status out = "Failed to process " ++ file_name ++ ": " ++ str_exn e
  end
  /\ final out = body.1.2
  /\ events out = body.2.
Proof.
  cbv zeta. unfold process_uploaded_files.
  destruct (process_body lib file_content file_name bank_name transaction_type st)
    as [[[[]|e] st'] evs]; repeat split.
Qed.

Section TaskFacts.

Context (lib : Library).

(** The outcome of the task in terms of [table_run]. *)
Lemma process_uploaded_files_table_run fc fn bank kind st r bk rf evs :
  table_run lib fc fn bank kind
    (cleaned_view (registry st) bank kind) (bookings st) (refunds st)
  = (r, bk, rf, evs) ->
  let out := process_uploaded_files lib fc fn bank kind st in
  status out = match r with
               | Ok _ => success_message fn
               | Raise e => failure_message fn e
               end
  /\ bookings (final out) = bk
  /\ refunds (final out) = rf
  /\ events out = evs
  /\ (forall bank' kind',
         cleaned_view (registry (final out)) bank' kind'
         = cleaned_view (registry st) bank' kind').
Proof.
  intros Ht. cbv zeta.
  destruct (process_body_table_run lib _ _ _ _ _ _ _ _ _ Ht) as (reg' & Hb & Hv).
  unfold process_uploaded_files. rewrite Hb.
  destruct r as [[]|e]; repeat split; apply Hv.
Qed.

Lemma filter_key_absent {T : Type} (key : T -> Z * Z) (k : Z * Z) (l : list T) :
  k ∉ map key l -> filter (fun x => key x = k) l = [].
Proof.
  induction l as [|x l IH]; [reflexivity|].
  cbn [map]. rewrite not_elem_of_cons. intros [Hx Hl].
  rewrite filter_cons. destruct (decide (key x = k)) as [E|_]; [congruence|].
  now apply IH.
Qed.

Lemma at_most_one_per_key {T : Type} (key : T -> Z * Z) (k : Z * Z) (l : list T) :
  NoDup (map key l) ->
  length (filter (fun x => key x = k) l) <= 1.
Proof.
  induction l as [|x l IH]; [intros _; simpl; lia|].
  cbn [map]. intros Hnd. apply NoDup_cons in Hnd as [Hx Hnd]. specialize (IH Hnd).
  rewrite filter_cons. destruct (decide (key x = k)) as [E|_]; [|exact IH].
  rewrite E in Hx. rewrite (filter_key_absent key k l Hx). simpl. lia.
Qed.

End TaskFacts.

(** C9: two runs on the same file bytes, file name, bank and record kind,
    from the same table contents, return the same status text, log the
    same row events and leave the same table contents, whichever
    dictionaries earlier runs have left behind. *)
Theorem process_uploaded_files_deterministic (lib : Library)
  (file_content : list Byte.byte) (file_name bank_name transaction_type : string)
  (reg1 reg2 : gmap string (gmap string Mapping))
  (bk : list BookingData.t) (rf : list RefundData.t) :
  registry_reachable lib reg1 ->
  registry_reachable lib reg2 ->
  let out1 := process_uploaded_files lib file_content file_name bank_name
                transaction_type (mkState reg1 bk rf) in
  let out2 := process_uploaded_files lib file_content file_name bank_name
                transaction_type (mkState reg2 bk rf) in
  status out1 = status out2
  /\ bookings (final out1) = bookings (final out2)
  /\ refunds (final out1) = refunds (final out2)
  /\ events out1 = events out2.
Proof.
  intros H1 H2. cbv zeta.
  destruct (table_run lib file_content file_name bank_name transaction_type
              (cleaned_view BANK_MAPPINGS bank_name transaction_type) bk rf)
    as [[[r bk'] rf'] evs] eqn:Ht.
  destruct (process_uploaded_files_table_run lib file_content file_name
              bank_name transaction_type (mkState reg1 bk rf) r bk' rf' evs)
    as (-> & -> & -> & -> & _).
  { cbn [registry bookings refunds].
    now rewrite (registry_reachable_view lib reg1 H1). }
  destruct (process_uploaded_files_table_run lib file_content file_name
              bank_name transaction_type (mkState reg2 bk rf) r bk' rf' evs)
    as (-> & -> & -> & -> & _).
  { cbn [registry bookings refunds].
    now rewrite (registry_reachable_view lib reg2 H2). }
  repeat split.
Qed.

Lemma process_uploaded_files_deterministic_witness :
  let after_one_run :=
    registry (final (process_uploaded_files PlainText.lib karur_booking_csv
                       "booking.csv" "karur_vysya" "booking"
                       (mkState BANK_MAPPINGS [] []))) in
  status (process_uploaded_files PlainText.lib karur_booking_csv
            "booking.csv" "karur_vysya" "booking" (mkState BANK_MAPPINGS [] []))
  = status (process_uploaded_files PlainText.lib karur_booking_csv
              "booking.csv" "karur_vysya" "booking" (mkState after_one_run [] [])).
Proof.
  cbv zeta.
  apply (process_uploaded_files_deterministic PlainText.lib karur_booking_csv
           "booking.csv" "karur_vysya" "booking").
  - apply reachable_loaded.
  - apply reachable_run, reachable_loaded.
Defined.

(** C4 (the code departs from it): the scenario file for "karur_vysya"
    / "booking" submitted twice against an empty store.  Both runs stop
    at the lookup of ['txn_date'], for want of the rename of the
    columns: the second run returns the failure text and not the success
    text, skips no row as a duplicate, and no record exists after
    either run. *)
Theorem karur_booking_resubmission_fails :
  let first := process_uploaded_files PlainText.lib karur_booking_csv
                 "booking.csv" "karur_vysya" "booking" initial_state in
  let second := process_uploaded_files PlainText.lib karur_booking_csv
                  "booking.csv" "karur_vysya" "booking" (final first) in
  status first = "Failed to process booking.csv: 'txn_date'"
  /\ bookings (final first) = []
  /\ (process_body PlainText.lib karur_booking_csv
        "booking.csv" "karur_vysya" "booking" (final first)).1.1
     = Raise (KeyError "txn_date")
  /\ status second = "Failed to process booking.csv: 'txn_date'"
  /\ status second <> "Successfully processed booking.csv"
  /\ events second = []
  /\ bookings (final second) = []
  /\ refunds (final second) = [].
Proof. vm_compute. repeat split. discriminate. Qed.

Section BlankReferences.

Context (lib : Library).

(** A row whose two reference fields are null has the pair (0, 0). *)
Lemma booking_coerce_blank row o b amount :
  Frame.get row "irctc_order_no" = Ok VNaN ->
  Frame.get row "bank_booking_ref_no" = Ok VNaN ->
  booking_coerce lib row = Ok (o, b, amount) ->
  (o, b) = (0, 0)%Z.
Proof.
  intros H1 H2. unfold booking_coerce, coerce_reference.
  rewrite H1, H2. cbn [bind notnull isnull negb].
  destruct (Frame.get row "booking_amount"); [|discriminate]. cbn [bind].
  destruct (to_numeric_coerce lib _); [|discriminate]. cbn [bind].
  now intros [= <- <- _].
Qed.

Lemma refund_coerce_blank row o b f amount :
  Frame.get row "irctc_order_no" = Ok VNaN ->
  Frame.get row "bank_booking_ref_no" = Ok VNaN ->
  refund_coerce lib row = Ok (o, b, f, amount) ->
  (o, b) = (0, 0)%Z.
Proof.
  intros H1 H2. unfold refund_coerce, coerce_reference.
  rewrite H1, H2. cbn [bind notnull isnull negb].
  destruct (Frame.get row "bank_refund_ref_no") as [v|]; [|discriminate].
  cbn [bind]. destruct (notnull v).
  - destruct (PyInt.int v); [|discriminate]. cbn [bind].
    destruct (Frame.get row "refund_amount"); [|discriminate]. cbn [bind].
    destruct (to_numeric_coerce lib _); [|discriminate]. cbn [bind].
    now intros [= <- <- _ _].
  - cbn [bind].
    destruct (Frame.get row "refund_amount"); [|discriminate]. cbn [bind].
    destruct (to_numeric_coerce lib _); [|discriminate]. cbn [bind].
    now intros [= <- <- _ _].
Qed.

End BlankReferences.

(** C8: run row after row, each loop only appends records whose pair
    (IRCTC order number, bank booking reference number), as coerced, is
    neither in the table already nor shared by two appended records; a row
    whose two reference fields are null has the pair (0, 0) and is skipped
    once a record with that pair is stored, so a loop appends at most one
    record with the pair (0, 0); the same holds for the tables of a whole
    run of the task. *)
Theorem no_duplicate_reference_pair (lib : Library) :
  (forall code rs tb r tb1 evs,
      booking_loop lib code rs tb = (r, tb1, evs) ->
      exists created,
        tb1 = (tb ++ created)%list
        /\ NoDup (map BookingData.key created)
        /\ Forall (fun x => BookingData.key x ∉ map BookingData.key tb) created
        /\ length (filter (fun x => BookingData.key x = (0, 0)%Z) created) <= 1)
  /\ (forall code rs tb r tb1 evs,
         refund_loop lib code rs tb = (r, tb1, evs) ->
         exists created,
           tb1 = (tb ++ created)%list
           /\ NoDup (map RefundData.key created)
           /\ Forall (fun x => RefundData.key x ∉ map RefundData.key tb) created
           /\ length (filter (fun x => RefundData.key x = (0, 0)%Z) created) <= 1)
  /\ (forall code row tb tb' ev,
         Frame.get row "irctc_order_no" = Ok VNaN ->
         Frame.get row "bank_booking_ref_no" = Ok VNaN ->
         (0, 0)%Z ∈ map BookingData.key tb ->
         booking_row lib code row tb = Ok (tb', ev) ->
         tb' = tb /\ ev = Skipped 0)
  /\ (forall code row tb tb' ev,
         Frame.get row "irctc_order_no" = Ok VNaN ->
         Frame.get row "bank_booking_ref_no" = Ok VNaN ->
         (0, 0)%Z ∈ map RefundData.key tb ->
         refund_row lib code row tb = Ok (tb', ev) ->
         tb' = tb /\ ev = Skipped 0)
  /\ (forall (file_content : list Byte.byte)
             (file_name bank_name transaction_type : string) (st : State),
         let out := process_uploaded_files lib file_content file_name
                      bank_name transaction_type st in
         fresh_extension BookingData.key (bookings st) (bookings (final out))
         /\ fresh_extension RefundData.key (refunds st) (refunds (final out))).
Proof.
  split; [|split; [|split; [|split]]].
  - intros code rs tb r tb1 evs H.
    destruct (booking_loop_created lib _ _ _ _ _ _ H) as (c & -> & Hnd & Hf).
    exists c. repeat split; auto. now apply at_most_one_per_key.
  - intros code rs tb r tb1 evs H.
    destruct (refund_loop_created lib _ _ _ _ _ _ H) as (c & -> & Hnd & Hf).
    exists c. repeat split; auto. now apply at_most_one_per_key.
  - intros code row tb tb' ev H1 H2 Hin H.
    destruct (booking_row_cases lib _ _ _ _ _ H)
      as (o & b & a & Hc & [(_ & -> & ->)|(Hex & _)]).
    + pose proof (booking_coerce_blank lib _ _ _ _ H1 H2 Hc) as [= -> ->]. auto.
    + pose proof (booking_coerce_blank lib _ _ _ _ H1 H2 Hc) as [= -> ->].
      apply booking_exists_spec in Hin. congruence.
  - intros code row tb tb' ev H1 H2 Hin H.
    destruct (refund_row_cases lib _ _ _ _ _ H)
      as (o & b & f & a & Hc & [(_ & -> & ->)|(Hex & _)]).
    + pose proof (refund_coerce_blank lib _ _ _ _ _ H1 H2 Hc) as [= -> ->]. auto.
    + pose proof (refund_coerce_blank lib _ _ _ _ _ H1 H2 Hc) as [= -> ->].
      apply refund_exists_spec in Hin. congruence.
  - intros fc fn bank kind st. cbv zeta.
    destruct (table_run lib fc fn bank kind
                (cleaned_view (registry st) bank kind) (bookings st) (refunds st))
      as [[[r bk] rf] evs] eqn:Ht.
    destruct (process_uploaded_files_table_run lib _ _ _ _ _ _ _ _ _ Ht)
      as (_ & -> & -> & _).
    apply (table_run_created lib _ _ _ _ _ _ _ _ _ _ _ Ht).
Qed.

Lemma no_duplicate_reference_pair_witness :
  exists created,
    (booking_branch PlainText.lib blank_reference_rows "karur_vysya" []).1.2
    = ([] ++ created)%list
    /\ NoDup (map BookingData.key created)
    /\ Forall (fun x => BookingData.key x ∉ map BookingData.key []) created
    /\ length (filter (fun x => BookingData.key x = (0, 0)%Z) created) <= 1.
Proof.
  apply (proj1 (no_duplicate_reference_pair PlainText.lib) 40%Z
           (Frame.iterrows
              (mkDataFrame (columns blank_reference_rows)
                 [[VTimestamp (mkdate 2024 1 1); VNaN; VNaN; VStr "10.00";
                   VTimestamp (mkdate 2024 1 5)];
                  [VTimestamp (mkdate 2024 1 2); VNaN; VNaN; VStr "20.00";
                   VTimestamp (mkdate 2024 1 6)]]))
           [] (Ok tt) _ [Saved 0%Z; Skipped 0%Z]).
  reflexivity.
Defined.

Example blank_reference_rows_once :
  exists r,
    booking_branch PlainText.lib blank_reference_rows "karur_vysya" []
    = (Ok tt, [r], [Saved 0%Z; Skipped 0%Z])
    /\ BookingData.key r = (0, 0)%Z.
Proof. eexists. split; reflexivity. Qed.

(** ** The end-to-end scenario and the unsupported extension *)

(** C1 (the code departs from it): on the scenario file for
    "karur_vysya" / "booking" and an empty store, the table keeps the
    cleaned header names after the column filter, the lookup of
    ['txn_date'] raises [KeyError], no record is persisted and the task
    returns the failure text. *)
Theorem karur_booking_scenario_fails :
  let out := process_uploaded_files PlainText.lib karur_booking_csv
               "booking.csv" "karur_vysya" "booking" initial_state in
  (df <- load_table PlainText.lib karur_booking_csv "booking.csv" ;;
   require_columns (clean_columns df)
     ["TXNDATE"; "IRCTCORDERNO"; "BANKBOOKINGREFNO"; "BOOKINGAMOUNT";
      "CREDITEDON"])%py
  = Ok (mkDataFrame
          ["TXNDATE"; "IRCTCORDERNO"; "BANKBOOKINGREFNO"; "BOOKINGAMOUNT";
           "CREDITEDON"]
          [[VStr "01-Jan-24"; VStr "12345"; VStr "67890"; VStr "1500.50";
            VStr "05-Jan-24"]])
  /\ (process_body PlainText.lib karur_booking_csv
        "booking.csv" "karur_vysya" "booking" initial_state).1.1
     = Raise (KeyError "txn_date")
  /\ status out = "Failed to process booking.csv: 'txn_date'"
  /\ bookings (final out) = []
  /\ refunds (final out) = []
  /\ events out = [].
Proof. vm_compute. repeat split. Qed.

(** What the row loop does with the scenario once the columns carry the
    field names: the record of the scenario is created. *)
Example karur_booking_renamed_persists :
  booking_branch PlainText.lib karur_booking_renamed "karur_vysya" []
  = (Ok tt,
     [BookingData.mk 40 (VTimestamp (mkdate 2024 1 1)) 12345 67890
        (VNum (150050 # 100)) (VTimestamp (mkdate 2024 1 5)) None None],
     [Saved 12345%Z]).
Proof. reflexivity. Qed.

Section ConverterFacts.

Context (lib : Library).

(** The [ValueError] raised for an unknown extension never leaves
    [convert_to_csv]: its handler returns the empty text, and the
    loader reads that. *)
Lemma unsupported_format_swallowed (content : list Byte.byte) (file_name : string) :
  Text.endswith file_name ".ods" = false ->
  Text.endswith file_name ".json" = false ->
  convert_body lib content file_name = Raise (unsupported_format file_name)
  /\ convert_to_csv lib content file_name = "".
Proof.
  intros H1 H2. unfold convert_to_csv, convert_body. now rewrite H1, H2.
Qed.

Lemma unsupported_format_load (content : list Byte.byte) (file_name : string) :
  Text.endswith file_name ".csv" = false ->
  Text.endswith file_name ".txt" = false ->
  Text.endswith file_name ".xlsx" = false ->
  Text.endswith file_name ".xls" = false ->
  Text.endswith file_name ".ods" = false ->
  Text.endswith file_name ".json" = false ->
  load_table lib content file_name = read_csv lib "" ","%char.
Proof.
  intros H1 H2 H3 H4 H5 H6. unfold load_table.
  rewrite H1, H2, H3, H4. cbn [orb].
  now rewrite (proj2 (unsupported_format_swallowed content file_name H5 H6)).
Qed.

End ConverterFacts.

(** C7 (the code departs from it): for a file named "report.pdf" the
    converter raises the unsupported-format error and swallows it, the
    loader then reads the empty text, and the failure text of the task
    is that of the empty-data error; no row is read, no record created. *)
Theorem unsupported_extension_reports_empty_data :
  let out := process_uploaded_files PlainText.lib karur_booking_csv
               "report.pdf" "karur_vysya" "booking" initial_state in
  convert_body PlainText.lib karur_booking_csv "report.pdf"
  = Raise (ValueError "Unsupported file format: report.pdf")
  /\ convert_to_csv PlainText.lib karur_booking_csv "report.pdf" = ""
  /\ load_table PlainText.lib karur_booking_csv "report.pdf"
     = Raise (EmptyDataError "No columns to parse from file")
  /\ status out = "Failed to process report.pdf: No columns to parse from file"
  /\ status out
     <> failure_message "report.pdf" (unsupported_format "report.pdf")
  /\ bookings (final out) = []
  /\ refunds (final out) = []
  /\ events out = [].
Proof. vm_compute. repeat split. discriminate. Qed.

(** C5 (the code departs from it): for a file named "bookings.xml" an
    error is raised during the run, the unsupported-format [ValueError]
    of the converter, and it is caught inside [convert_to_csv] and not
    by the handler of the task; what reaches that handler is the
    empty-data error of the reader, so the status names the file but
    not the error that occurred. *)
Theorem converter_error_is_not_reported :
  let body := process_body PlainText.lib karur_booking_csv
                "bookings.xml" "karur_vysya" "booking" initial_state in
  let out := process_uploaded_files PlainText.lib karur_booking_csv
               "bookings.xml" "karur_vysya" "booking" initial_state in
  convert_body PlainText.lib karur_booking_csv "bookings.xml"
  = Raise (ValueError "Unsupported file format: bookings.xml")
  /\ body.1.1 = Raise (EmptyDataError "No columns to parse from file")
  /\ status out = "Failed to process bookings.xml: No columns to parse from file"
  /\ status out
     <> "Failed to process bookings.xml: Unsupported file format: bookings.xml".
Proof. vm_compute. repeat split. discriminate. Qed.

(** ** The missing rename

What the end-to-end scenario shows holds for every run: the table left
    by the column filter carries cleaned names of the mapping, none of
    which is a field name, so both branches stop at their first column
    lookup. *)

Section MissingRename.

Context (lib : Library).

Lemma positions_spec label cols k i :
  i ∈ Frame.positions label cols k ->
  k <= i /\ nth (i - k) cols "" = label.
Proof.
  revert k. induction cols as [|c cols IH]; intros k; simpl.
  - intros H. inversion H.
  - destruct (String.eqb_spec c label) as [->|_].
    + rewrite elem_of_cons. intros [->|H].
      * rewrite Nat.sub_diag. split; [lia|reflexivity].
      * destruct (IH _ H) as [Hle Hn]. split; [lia|].
        replace (i - k) with (S (i - S k)) by lia. exact Hn.
    + intros H. destruct (IH _ H) as [Hle Hn]. split; [lia|].
      replace (i - k) with (S (i - S k)) by lia. exact Hn.
Qed.

Lemma positions_absent label cols k :
  label ∉ cols -> Frame.positions label cols k = [].
Proof.
  revert k. induction cols as [|c cols IH]; intros k; simpl; [reflexivity|].
  rewrite not_elem_of_cons. intros [Hc Hl].
  destruct (String.eqb_spec c label) as [E|_]; [congruence|]. now apply IH.
Qed.

Lemma select_columns df labels :
  Forall (fun c => c ∈ labels) (columns (Frame.select df labels)).
Proof.
  unfold Frame.select. cbn [columns].
  rewrite Forall_forall. intros c.
  rewrite list_elem_of_In, in_map_iff. intros (i & <- & Hi).
  apply in_flat_map in Hi as (l & Hl & Hi).
  apply list_elem_of_In in Hi. apply positions_spec in Hi as [_ Hn].
  rewrite Nat.sub_0_r in Hn. rewrite Hn. now apply list_elem_of_In.
Qed.

Lemma get_column_absent df label :
  label ∉ columns df -> Frame.get_column df label = Raise (KeyError label).
Proof.
  intros H. unfold Frame.get_column. now rewrite (positions_absent _ _ _ H).
Qed.

Lemma require_columns_labels df required df' :
  require_columns df required = Ok df' ->
  Forall (fun c => c ∈ required) (columns df').
Proof.
  unfold require_columns.
  destruct (filter _ required); [|discriminate].
  intros [= <-]. apply select_columns.
Qed.

Lemma booking_branch_without_field df bank tb :
  "txn_date" ∉ columns df ->
  booking_branch lib df bank tb = (Raise (KeyError "txn_date"), tb, []).
Proof.
  intros H. unfold booking_branch, booking_prepare, parse_date_column.
  now rewrite (get_column_absent _ _ H).
Qed.

Lemma refund_branch_without_field df bank tb :
  "refund_date" ∉ columns df ->
  refund_branch lib df bank tb = (Raise (KeyError "refund_date"), tb, []).
Proof.
  intros H. unfold refund_branch, refund_prepare, parse_date_column.
  now rewrite (get_column_absent _ _ H).
Qed.

Lemma lookup_two_kinds (a b : Mapping) (k : string) (m : Mapping) :
  (list_to_map [("booking", a); ("refund", b)] : gmap string Mapping) !! k
  = Some m ->
  (k = "booking" /\ m = a) \/ (k = "refund" /\ m = b).
Proof.
  cbn [list_to_map foldr fst snd].
  destruct (decide (k = "booking")) as [->|H1].
  - rewrite lookup_insert_eq. intros [= <-]. now left.
  - rewrite lookup_insert_ne by congruence.
    destruct (decide (k = "refund")) as [->|H2].
    + rewrite lookup_insert_eq. intros [= <-]. now right.
    + rewrite lookup_insert_ne by congruence. rewrite lookup_empty.
      discriminate.
Qed.

Lemma lookup_loaded_bank (bank : string) (per_bank : gmap string Mapping) :
  BANK_MAPPINGS !! bank = Some per_bank ->
  per_bank = hdfc_mappings \/ per_bank = icici_mappings
  \/ per_bank = karur_vysya_mappings.
Proof.
  unfold BANK_MAPPINGS. cbn [list_to_map foldr fst snd].
  destruct (decide (bank = "hdfc")) as [->|H1].
  { rewrite lookup_insert_eq. intros [= <-]. auto. }
  rewrite lookup_insert_ne by congruence.
  destruct (decide (bank = "icici")) as [->|H2].
  { rewrite lookup_insert_eq. intros [= <-]. auto. }
  rewrite lookup_insert_ne by congruence.
  destruct (decide (bank = "karur_vysya")) as [->|H3].
  { rewrite lookup_insert_eq. intros [= <-]. auto. }
  rewrite lookup_insert_ne by congruence. rewrite lookup_empty. discriminate.
Qed.

(** The mappings of the loaded dictionary: only for "booking" and
    "refund", and with no field name among the cleaned columns. *)
Lemma loaded_view bank kind c :
  cleaned_view BANK_MAPPINGS bank kind = Some c ->
  (kind = "booking" \/ kind = "refund")
  /\ ("txn_date" ∉ c) /\ ("refund_date" ∉ c).
Proof.
  unfold cleaned_view, get_mappings.
  destruct (BANK_MAPPINGS !! bank) as [pb|] eqn:Hb; [|discriminate].
  destruct (pb !! kind) as [m|] eqn:Hm; [|discriminate].
  cbn. intros [= <-].
  apply lookup_loaded_bank in Hb as [ -> | [ -> | -> ] ];
    apply lookup_two_kinds in Hm as [ [ -> -> ] | [ -> -> ] ];
    (split; [auto|]);
    vm_compute;
    split; intros H;
    repeat (apply elem_of_cons in H as [H|H]; [discriminate H|]);
    inversion H.
Qed.

(** From any dictionary the module can hold, a run creates no record,
    logs no row and returns a failure text. *)
Lemma task_never_persists reg fc fn bank kind bk rf :
  registry_reachable lib reg ->
  let out := process_uploaded_files lib fc fn bank kind (mkState reg bk rf) in
  (exists e, status out = failure_message fn e)
  /\ bookings (final out) = bk
  /\ refunds (final out) = rf
  /\ events out = [].
Proof.
  intros Hreach. cbv zeta.
  assert (Ht : exists e,
             table_run lib fc fn bank kind (cleaned_view reg bank kind) bk rf
             = (Raise e, bk, rf, [])).
  { rewrite (registry_reachable_view lib reg Hreach).
    unfold table_run.
    destruct (load_table lib fc fn) as [df|e]; [|eauto].
    destruct (cleaned_view BANK_MAPPINGS bank kind) as [c|] eqn:Hv; [|eauto].
    destruct (loaded_view _ _ _ Hv) as (Hkind & Htxn & Hrefund).
    destruct (require_columns (clean_columns df) c) as [df'|e] eqn:Hreq; [|eauto].
    pose proof (require_columns_labels _ _ _ Hreq) as Hcols.
    rewrite Forall_forall in Hcols.
    unfold persist. destruct Hkind as [E|E]; subst kind;
      cbn [String.eqb Ascii.eqb Bool.eqb].
    - rewrite booking_branch_without_field; [eauto|].
      intros Hin. apply Htxn. now apply Hcols.
    - rewrite refund_branch_without_field; [eauto|].
      intros Hin. apply Hrefund. now apply Hcols. }
  destruct Ht as [e Ht].
  destruct (process_uploaded_files_table_run lib fc fn bank kind
              (mkState reg bk rf) _ _ _ _ Ht) as (Hs & Hb & Hr & He & _).
  repeat split; eauto.
Qed.

End MissingRename.

(** * Further properties of the pipeline *)

(** ** Column names *)

Section NormaliserFacts.
Import Text.

Lemma space_not_word (c : ascii) : is_space c = true -> is_word c = false.
Proof.
  intros Hs. destruct (is_word c) eqn:Hw; [|reflexivity].
  rewrite (word_not_space c Hw) in Hs. discriminate.
Qed.

Lemma filter_word_lstrip (s : string) :
  filter_chars is_word (lstrip_with is_space s) = filter_chars is_word s.
Proof.
  induction s as [|c t IH]; simpl; [reflexivity|].
  destruct (is_space c) eqn:Hs; [|reflexivity].
  now rewrite (space_not_word c Hs).
Qed.

Lemma filter_word_rstrip (s : string) :
  filter_chars is_word (rstrip_with is_space s) = filter_chars is_word s.
Proof.
  induction s as [|c t IH]; simpl; [reflexivity|].
  destruct (rstrip_with is_space t) as [|d t'] eqn:Hr.
  - simpl in IH. rewrite <- IH.
    destruct (is_space c) eqn:Hs.
    + now rewrite (space_not_word c Hs).
    + simpl. now destruct (is_word c).
  - cbn [filter_chars] in *. now rewrite IH.
Qed.

Lemma filter_chars_app (p : ascii -> bool) (a b : string) :
  filter_chars p (a ++ b) = filter_chars p a ++ filter_chars p b.
Proof.
  induction a as [|c a IH]; simpl; [reflexivity|].
  destruct (p c); simpl; now rewrite IH.
Qed.

Lemma clean_column_filter (name : string) :
  clean_column name = filter_chars is_word name.
Proof.
  unfold clean_column, strip.
  now rewrite re_sub_nonword_filter, filter_word_rstrip, filter_word_lstrip.
Qed.

End NormaliserFacts.

(** X1: cleaning a cleaned column name, or a cleaned list of column
    names, changes nothing. *)
Theorem cleaned_names_are_fixed (name : string) (names : list string) :
  clean_column (clean_column name) = clean_column name
  /\ map clean_column (map clean_column names) = map clean_column names.
Proof.
  split; [apply clean_column_idempotent|apply map_clean_column_idempotent].
Qed.

(** X2: only the word characters of a column name count, wherever the
    other characters stand: the cleaned name is the sequence of its
    letters, digits and underscores, and cleaning distributes over
    concatenation. *)
Theorem clean_column_word_content (a b : string) :
  clean_column a = Text.filter_chars Text.is_word a
  /\ clean_column (a ++ b) = clean_column a ++ clean_column b.
Proof.
  split; [apply clean_column_filter|].
  rewrite !clean_column_filter. apply filter_chars_app.
Qed.

(** ** The delimiter of a text file *)

Section DelimiterFacts.
Import Text.

Lemma filter_absent_delimiters (s : string) (l : list ascii) :
  Forall (fun c => contains_char c s = false) l ->
  filter (fun c => contains_char c s = true) l = [].
Proof.
  induction 1 as [|c l Hc _ IH]; [reflexivity|].
  rewrite filter_cons_False by congruence. exact IH.
Qed.

Lemma pick_delimiter_head (s : string) pre d post :
  possible_delimiters = (pre ++ d :: post)%list ->
  Forall (fun c => contains_char c s = false) pre ->
  contains_char d s = true ->
  pick_delimiter s = d.
Proof.
  intros Hsplit Hpre Hd. unfold pick_delimiter.
  rewrite Hsplit, filter_app, (filter_absent_delimiters s pre Hpre).
  now rewrite filter_cons_True by exact Hd.
Qed.

Lemma pick_delimiter_default (s : string) :
  Forall (fun c => contains_char c s = false) possible_delimiters ->
  pick_delimiter s = ","%char.
Proof.
  intros H. unfold pick_delimiter.
  now rewrite (filter_absent_delimiters s _ H).
Qed.

End DelimiterFacts.

(** X3: the delimiter of a text file is the first of comma, semicolon,
    tab, pipe, space, period, underscore that occurs in the text, and the
    comma when none occurs; in particular a text with a comma anywhere
    is read as comma-delimited. *)
Theorem pick_delimiter_priority (s : string) :
  (forall pre d post,
      possible_delimiters = (pre ++ d :: post)%list ->
      Forall (fun c => Text.contains_char c s = false) pre ->
      Text.contains_char d s = true ->
      pick_delimiter s = d)
  /\ (Forall (fun c => Text.contains_char c s = false) possible_delimiters ->
      pick_delimiter s = ","%char)
  /\ (Text.contains_char "," s = true -> pick_delimiter s = ","%char)
  /\ pick_delimiter s ∈ possible_delimiters.
Proof.
  split; [|split; [|split]].
  - intros pre d post. apply pick_delimiter_head.
  - apply pick_delimiter_default.
  - intros H. now apply (pick_delimiter_head s [] ","%char
                           [";"; "009"; "|"; " "; "."; "_"]%char).
  - unfold pick_delimiter.
    destruct (filter _ possible_delimiters) as [|d l] eqn:E.
    + apply elem_of_cons. now left.
    + assert (Hd : d ∈ filter (fun d => Text.contains_char d s = true)
                       possible_delimiters) by (rewrite E; apply elem_of_cons; now left).
      now apply list_elem_of_filter in Hd as [_ Hd].
Qed.

Lemma pick_delimiter_priority_witness :
  pick_delimiter "a.b;c d" = ";"%char
  /\ pick_delimiter "abc" = ","%char.
Proof.
  destruct (pick_delimiter_priority "a.b;c d") as (Hfirst & _).
  destruct (pick_delimiter_priority "abc") as (_ & Hnone & _).
  split.
  - apply (Hfirst [","%char] ";"%char ["009"; "|"; " "; "."; "_"]%char).
    + reflexivity.
    + repeat constructor.
    + reflexivity.
  - apply Hnone. repeat constructor.
Defined.

(** ** The mapping dictionary *)

Section DictionaryFacts.

Context (lib : Library).

Lemma get_mappings_store reg bank kind cleaned bank' kind' :
  get_mappings (store_columns reg bank kind cleaned) bank' kind'
  = match get_mappings reg bank kind with
    | Some m =>
        if decide (bank = bank' /\ kind = kind')
        then Some (mkMapping cleaned (column_mapping m))
        else get_mappings reg bank' kind'
    | None => get_mappings reg bank' kind'
    end.
Proof.
  unfold store_columns, get_mappings.
  destruct (reg !! bank) as [pb|] eqn:Hb; [|reflexivity].
  destruct (pb !! kind) as [m|] eqn:Hk; [|reflexivity].
  destruct (decide (bank = bank')) as [<-|Hne].
  - rewrite lookup_insert_eq.
    destruct (decide (kind = kind')) as [<-|Hne'].
    + rewrite lookup_insert_eq. now rewrite decide_True by auto.
    + rewrite lookup_insert_ne by exact Hne'. rewrite Hb.
      rewrite decide_False; [reflexivity|]. intros [_ ?]. contradiction.
  - rewrite lookup_insert_ne by exact Hne.
    rewrite decide_False; [reflexivity|]. intros [? _]. contradiction.
Qed.

Lemma store_columns_twice reg bank kind cleaned :
  store_columns (store_columns reg bank kind cleaned) bank kind cleaned
  = store_columns reg bank kind cleaned.
Proof.
  unfold store_columns.
  destruct (reg !! bank) as [pb|] eqn:Hb; [|now rewrite Hb].
  destruct (pb !! kind) as [m|] eqn:Hk; [|now rewrite Hb, Hk].
  rewrite !lookup_insert_eq. cbn [column_mapping].
  now rewrite !insert_insert_eq.
Qed.

(** The dictionary a run leaves: untouched when the loader raises, and
    otherwise the one [resolve_mappings] writes. *)
Lemma registry_after_run fc fn bank kind st :
  registry (final (process_uploaded_files lib fc fn bank kind st))
  = match load_table lib fc fn with
    | Raise _ => registry st
    | Ok _ => (resolve_mappings (registry st) bank kind).2
    end.
Proof.
  rewrite final_is_body_state. unfold process_body.
  destruct (load_table lib fc fn) as [df|e]; [|reflexivity].
  destruct (resolve_mappings (registry st) bank kind) as [cleaned reg].
  destruct cleaned as [c|e]; cbn [bind]; [|reflexivity].
  destruct (require_columns _ c) as [df'|e]; [|reflexivity].
  now destruct (persist lib df' bank kind _ _) as [[[r bk] rf] evs].
Qed.

Lemma resolve_mappings_twice reg bank kind :
  (resolve_mappings (resolve_mappings reg bank kind).2 bank kind).2
  = (resolve_mappings reg bank kind).2.
Proof.
  unfold resolve_mappings at 2 3.
  destruct (get_mappings reg bank kind) as [m|] eqn:Hm; cbn [snd].
  - unfold resolve_mappings.
    rewrite get_mappings_store, Hm, decide_True by auto.
    cbn [snd mapping_columns].
    rewrite map_clean_column_idempotent. apply store_columns_twice.
  - unfold resolve_mappings. now rewrite Hm.
Qed.

End DictionaryFacts.

(** X4: a run rewrites at most the column list of the mapping of its
    own bank and record kind, to the cleaned names, as soon as the table
    is loaded and whatever happens afterwards; the mappings of every
    other bank and kind, and every rename table, are left as they
    were. *)
Theorem run_rewrites_only_its_columns (lib : Library)
  (file_content : list Byte.byte) (file_name bank_name transaction_type : string)
  (st : State) (bank' kind' : string) :
  let after := registry (final (process_uploaded_files lib file_content
                                  file_name bank_name transaction_type st)) in
  (~ (bank_name = bank' /\ transaction_type = kind') ->
   get_mappings after bank' kind' = get_mappings (registry st) bank' kind')
  /\ column_mapping <$> get_mappings after bank' kind'
     = column_mapping <$> get_mappings (registry st) bank' kind'
  /\ (forall df m,
         load_table lib file_content file_name = Ok df ->
         get_mappings (registry st) bank_name transaction_type = Some m ->
         get_mappings after bank_name transaction_type
         = Some (mkMapping (map clean_column (mapping_columns m))
                   (column_mapping m))).
Proof.
  cbv zeta. rewrite registry_after_run.
  destruct (load_table lib file_content file_name) as [df|e].
  - unfold resolve_mappings.
    destruct (get_mappings (registry st) bank_name transaction_type)
      as [m|] eqn:Hm; cbn [snd].
    + rewrite !get_mappings_store, Hm. split; [|split].
      * intros Hne. now rewrite decide_False by exact Hne.
      * destruct (decide _) as [[<- <-]|_]; [|reflexivity]. now rewrite Hm.
      * intros df' m' _ [= <-]. now rewrite decide_True by auto.
    + split; [|split]; auto. intros ? ? _ [=].
  - split; [|split]; auto. intros ? ? [=].
Qed.

Lemma run_rewrites_only_its_columns_witness :
  let after := registry (final (process_uploaded_files PlainText.lib
                                  karur_booking_csv "booking.csv"
                                  "karur_vysya" "booking" initial_state)) in
  get_mappings after "hdfc" "booking" = get_mappings BANK_MAPPINGS "hdfc" "booking"
  /\ mapping_columns <$> get_mappings after "karur_vysya" "booking"
     = Some ["TXNDATE"; "IRCTCORDERNO"; "BANKBOOKINGREFNO"; "BOOKINGAMOUNT";
             "CREDITEDON"].
Proof.
  cbv zeta.
  destruct (run_rewrites_only_its_columns PlainText.lib karur_booking_csv
              "booking.csv" "karur_vysya" "booking" initial_state
              "hdfc" "booking") as (Hother & _ & _).
  destruct (run_rewrites_only_its_columns PlainText.lib karur_booking_csv
              "booking.csv" "karur_vysya" "booking" initial_state
              "karur_vysya" "booking") as (_ & _ & Hown).
  split.
  - apply Hother. intros [E _]. discriminate E.
  - specialize (Hown _ _ eq_refl eq_refl). rewrite Hown. reflexivity.
Defined.

(** X5: the rewrite of the mapping dictionary happens once: a second
    submission of the same file for the same bank and kind leaves the
    dictionary exactly as the first left it. *)
Theorem resubmission_keeps_dictionary (lib : Library)
  (file_content : list Byte.byte) (file_name bank_name transaction_type : string)
  (st : State) :
  let first := process_uploaded_files lib file_content file_name
                 bank_name transaction_type st in
  let second := process_uploaded_files lib file_content file_name
                  bank_name transaction_type (final first) in
  registry (final second) = registry (final first).
Proof.
  cbv zeta. rewrite (registry_after_run lib _ _ _ _ (final _)).
  rewrite registry_after_run.
  destruct (load_table lib file_content file_name) as [df|e]; [|reflexivity].
  apply resolve_mappings_twice.
Qed.

(** ** Banks, record kinds and required columns *)

Section LookupFacts.

Context (lib : Library).

Lemma lookup_loaded_bank_name (bank : string) (per_bank : gmap string Mapping) :
  BANK_MAPPINGS !! bank = Some per_bank ->
  bank = "hdfc" \/ bank = "icici" \/ bank = "karur_vysya".
Proof.
  unfold BANK_MAPPINGS. cbn [list_to_map foldr fst snd].
  destruct (decide (bank = "hdfc")) as [->|H1]; [auto|].
  rewrite lookup_insert_ne by congruence.
  destruct (decide (bank = "icici")) as [->|H2]; [auto|].
  rewrite lookup_insert_ne by congruence.
  destruct (decide (bank = "karur_vysya")) as [->|H3]; [auto|].
  rewrite lookup_insert_ne by congruence. rewrite lookup_empty. discriminate.
Qed.

Lemma loaded_mapping_exists (bank kind : string) :
  is_Some (get_mappings BANK_MAPPINGS bank kind)
  <-> (bank = "hdfc" \/ bank = "icici" \/ bank = "karur_vysya")
      /\ (kind = "booking" \/ kind = "refund").
Proof.
  split.
  - intros [m Hm]. unfold get_mappings in Hm.
    destruct (BANK_MAPPINGS !! bank) as [pb|] eqn:Hb; [|discriminate].
    split; [exact (lookup_loaded_bank_name _ _ Hb)|].
    apply lookup_loaded_bank in Hb as [ -> | [ -> | -> ] ];
      apply lookup_two_kinds in Hm as [ [ -> _ ] | [ -> _ ] ]; auto.
  - intros [[ -> | [ -> | -> ] ] [ -> | -> ] ]; vm_compute; eauto.
Qed.

Lemma reachable_mapping_exists reg (bank kind : string) :
  registry_reachable lib reg ->
  is_Some (get_mappings reg bank kind)
  <-> (bank = "hdfc" \/ bank = "icici" \/ bank = "karur_vysya")
      /\ (kind = "booking" \/ kind = "refund").
Proof.
  intros Hreach. rewrite <- loaded_mapping_exists.
  pose proof (registry_reachable_view lib reg Hreach bank kind) as Hv.
  unfold cleaned_view in Hv.
  destruct (get_mappings reg bank kind), (get_mappings BANK_MAPPINGS bank kind);
    try discriminate; split; intros [? ?]; try discriminate; eauto.
Qed.

Lemma bank_code_of_known (bank : string) :
  bank = "hdfc" \/ bank = "icici" \/ bank = "karur_vysya" ->
  exists code, bank_code_of bank = Ok code
               /\ (code = 101 \/ code = 102 \/ code = 40)%Z.
Proof.
  intros [ -> | [ -> | -> ] ]; eexists; (split; [reflexivity|]); auto.
Qed.

End LookupFacts.

(** X6: in any dictionary the module can hold there is a mapping exactly
    for the banks hdfc, icici and karur_vysya with the kinds booking and
    refund; for any other bank or kind a run whose table loads ends with
    the "No mapping found" failure text and leaves the dictionary and
    both tables as they were. *)
Theorem unknown_mapping_refused (lib : Library)
  (file_content : list Byte.byte) (file_name bank_name transaction_type : string)
  (reg : gmap string (gmap string Mapping))
  (bk : list BookingData.t) (rf : list RefundData.t) (df : DataFrame) :
  registry_reachable lib reg ->
  load_table lib file_content file_name = Ok df ->
  ~ ((bank_name = "hdfc" \/ bank_name = "icici" \/ bank_name = "karur_vysya")
     /\ (transaction_type = "booking" \/ transaction_type = "refund")) ->
  let out := process_uploaded_files lib file_content file_name bank_name
               transaction_type (mkState reg bk rf) in
  status out
  = "Failed to process " ++ file_name ++ ": No mapping found for bank: "
    ++ bank_name ++ ", transaction type: " ++ transaction_type
  /\ final out = mkState reg bk rf
  /\ events out = [].
Proof.
  intros Hreach Hload Hunknown. cbv zeta.
  assert (Hnone : get_mappings reg bank_name transaction_type = None).
  { destruct (get_mappings reg bank_name transaction_type) as [m|] eqn:Hm;
      [|reflexivity].
    exfalso. apply Hunknown.
    apply (reachable_mapping_exists lib reg _ _ Hreach). rewrite Hm. eauto. }
  unfold process_uploaded_files, process_body, resolve_mappings.
  rewrite Hload. cbn [registry]. rewrite Hnone. cbn [bind].
  repeat split.
Qed.

Lemma unknown_mapping_refused_witness :
  status (process_uploaded_files PlainText.lib karur_booking_csv "booking.csv"
            "karur_vysya" "payout" initial_state)
  = "Failed to process booking.csv: No mapping found for bank: karur_vysya, transaction type: payout".
Proof.
  refine (proj1 (unknown_mapping_refused PlainText.lib karur_booking_csv
                   "booking.csv" "karur_vysya" "payout" BANK_MAPPINGS [] []
                   _ (reachable_loaded _) eq_refl _)).
  intros [_ [E|E]]; discriminate E.
Defined.

(** X7: every bank that has a mapping has a bank code, one of 101, 102
    and 40, so a run that found its mapping never fails with "No bank
    code found". *)
Theorem mapped_bank_has_code (lib : Library)
  (reg : gmap string (gmap string Mapping)) (bank_name transaction_type : string)
  (m : Mapping) :
  registry_reachable lib reg ->
  get_mappings reg bank_name transaction_type = Some m ->
  exists code,
    bank_code_of bank_name = Ok code
    /\ (code = 101 \/ code = 102 \/ code = 40)%Z.
Proof.
  intros Hreach Hm. apply bank_code_of_known.
  apply (reachable_mapping_exists lib reg bank_name transaction_type Hreach).
  rewrite Hm. eauto.
Qed.

Lemma mapped_bank_has_code_witness :
  exists code, bank_code_of "icici" = Ok code
               /\ (code = 101 \/ code = 102 \/ code = 40)%Z.
Proof.
  refine (mapped_bank_has_code PlainText.lib BANK_MAPPINGS "icici" "refund" _
            (reachable_loaded _) _).
  reflexivity.
Defined.

(** X8: when the table loads and the mapping is found but some required
    column is absent from the cleaned headers, the run ends with the
    "Missing columns" failure text listing exactly the absent cleaned
    names in the order of the mapping; no row is processed and both
    tables stay as they were. *)
Theorem missing_columns_refused (lib : Library)
  (file_content : list Byte.byte) (file_name bank_name transaction_type : string)
  (st : State) (df : DataFrame) (m : Mapping) :
  load_table lib file_content file_name = Ok df ->
  get_mappings (registry st) bank_name transaction_type = Some m ->
  let required := map clean_column (mapping_columns m) in
  let missing :=
    filter (fun c => c ∉ map clean_column (columns df)) required in
  missing <> [] ->
  let out := process_uploaded_files lib file_content file_name bank_name
               transaction_type st in
  status out
  = "Failed to process " ++ file_name ++ ": Missing columns in DataFrame: "
    ++ py_list_repr missing
  /\ (forall c, c ∈ missing <->
                c ∈ required /\ c ∉ map clean_column (columns df))
  /\ bookings (final out) = bookings st
  /\ refunds (final out) = refunds st
  /\ events out = [].
Proof.
  intros Hload Hm required missing Hmissing. cbv zeta.
  unfold process_uploaded_files, process_body, resolve_mappings.
  rewrite Hload, Hm. cbn [bind]. unfold require_columns.
  cbn [columns clean_columns]. fold required. fold missing.
  destruct missing as [|c0 l] eqn:E; [contradiction|].
  cbn [bookings refunds status final events]. repeat split.
  - rewrite <- E in H. unfold missing in H.
    now apply list_elem_of_filter in H as [_ ?].
  - rewrite <- E in H. unfold missing in H.
    now apply list_elem_of_filter in H as [? _].
  - intros [? ?]. rewrite <- E. unfold missing. now apply list_elem_of_filter.
Qed.

Lemma missing_columns_refused_witness :
  status (process_uploaded_files PlainText.lib
            (list_byte_of_string "TXN DATE,BOOKING AMOUNT") "short.csv"
            "karur_vysya" "booking" initial_state)
  = "Failed to process short.csv: Missing columns in DataFrame: ['IRCTCORDERNO', 'BANKBOOKINGREFNO', 'CREDITEDON']".
Proof.
  refine (proj1 (missing_columns_refused PlainText.lib
                   (list_byte_of_string "TXN DATE,BOOKING AMOUNT") "short.csv"
                   "karur_vysya" "booking" initial_state _ _ eq_refl eq_refl _)).
  vm_compute. discriminate.
Defined.

(** ** More on the row loops *)

Section LoopAlgebra.

Context {T : Type} (body : Series -> list T -> result (list T * row_event)).

Lemma row_loop_app (rs1 rs2 : list Series) (tb : list T) :
  row_loop body (rs1 ++ rs2) tb
  = match row_loop body rs1 tb with
    | (Ok _, tb1, evs1) =>
        let '(r, tb2, evs2) := row_loop body rs2 tb1 in
        (r, tb2, (evs1 ++ evs2)%list)
    | (Raise e, tb1, evs1) => (Raise e, tb1, evs1)
    end.
Proof.
  revert tb. induction rs1 as [|row rs1 IH]; intros tb.
  - cbn [app row_loop]. now destruct (row_loop body rs2 tb) as [[r tb2] evs2].
  - change ((row :: rs1) ++ rs2)%list with (row :: (rs1 ++ rs2)%list).
    cbn [row_loop]. destruct (body row tb) as [[tb' ev]|e]; [|reflexivity].
    rewrite IH. destruct (row_loop body rs1 tb') as [[[[]|e] tb1] evs1].
    + now destruct (row_loop body rs2 tb1) as [[r tb2] evs2].
    + reflexivity.
Qed.

Hypothesis body_counts :
  forall row tb tb' ev,
    body row tb = Ok (tb', ev) ->
    length tb' = length tb + saved_count [ev].

Lemma row_loop_counts (rs : list Series) :
  forall tb r tb1 evs,
    row_loop body rs tb = (r, tb1, evs) ->
    length tb1 = length tb + saved_count evs
    /\ match r with
       | Ok _ => length evs = length rs
       | Raise _ => length evs < length rs
       end.
Proof.
  induction rs as [|row rs IH]; intros tb r tb1 evs; cbn [row_loop].
  - intros [= <- <- <-]. simpl. split; lia.
  - destruct (body row tb) as [[tb' ev]|e] eqn:Hb.
    + destruct (row_loop body rs tb') as [[r' tb''] evs'] eqn:Hl.
      intros [= <- <- <-]. destruct (IH _ _ _ _ Hl) as [Hlen Hr].
      pose proof (body_counts _ _ _ _ Hb) as Hc. split.
      * rewrite Hlen, Hc. destruct ev; simpl; lia.
      * destruct r'; simpl; lia.
    + intros [= <- <- <-]. simpl. split; lia.
Qed.

End LoopAlgebra.

Section RowFailures.

Context (lib : Library).

Lemma booking_unique_when_absent tb r :
  booking_exists tb (BookingData.irctc_order_no r)
                 (BookingData.bank_booking_ref_no r) = false ->
  existsb (fun r' => bool_decide (BookingData.unique_fields r'
                                  = BookingData.unique_fields r)) tb = false.
Proof.
  unfold booking_exists. induction tb as [|x tb IH]; [reflexivity|].
  cbn [existsb]. intros [Hx Htb]%orb_false_elim. rewrite (IH Htb), orb_false_r.
  apply bool_decide_eq_false. apply bool_decide_eq_false in Hx.
  intros Hu. apply Hx. unfold BookingData.unique_fields, BookingData.key in *.
  congruence.
Qed.

Lemma refund_unique_when_absent tb r :
  refund_exists tb (RefundData.irctc_order_no r)
                (RefundData.bank_booking_ref_no r) = false ->
  existsb (fun r' => bool_decide (RefundData.unique_fields r'
                                  = RefundData.unique_fields r)) tb = false.
Proof.
  unfold refund_exists. induction tb as [|x tb IH]; [reflexivity|].
  cbn [existsb]. intros [Hx Htb]%orb_false_elim. rewrite (IH Htb), orb_false_r.
  apply bool_decide_eq_false. apply bool_decide_eq_false in Hx.
  intros Hu. apply Hx. unfold RefundData.unique_fields, RefundData.key in *.
  congruence.
Qed.

Lemma booking_row_counts code row tb tb' ev :
  booking_row lib code row tb = Ok (tb', ev) ->
  length tb' = length tb + saved_count [ev].
Proof.
  intros H. destruct (booking_row_cases lib _ _ _ _ _ H)
    as (o & b & a & _ & [(_ & -> & ->)|(_ & -> & r & -> & _)]).
  - simpl. lia.
  - rewrite length_app. simpl. lia.
Qed.

Lemma refund_row_counts code row tb tb' ev :
  refund_row lib code row tb = Ok (tb', ev) ->
  length tb' = length tb + saved_count [ev].
Proof.
  intros H. destruct (refund_row_cases lib _ _ _ _ _ H)
    as (o & b & f & a & _ & [(_ & -> & ->)|(_ & -> & r & -> & _)]).
  - simpl. lia.
  - rewrite length_app. simpl. lia.
Qed.

End RowFailures.

(** X9: a row of either loop fails only in its coercion step, in reading
    one of its two dates, or in the conversion of its field values on
    save; once the existence check on the two reference numbers has
    passed, the uniqueness constraint of the table cannot reject the new
    record. *)
Theorem row_failures_are_not_conflicts (lib : Library) (code : Z) (row : Series)
  (e : exn) :
  (forall tb,
      booking_row lib code row tb = Raise e ->
      booking_coerce lib row = Raise e
      \/ Frame.get row "txn_date" = Raise e
      \/ Frame.get row "credited_date" = Raise e
      \/ exists r, prepare_booking lib r = Raise e
                   /\ BookingData.key r ∉ map BookingData.key tb)
  /\ (forall tb,
         refund_row lib code row tb = Raise e ->
         refund_coerce lib row = Raise e
         \/ Frame.get row "refund_date" = Raise e
         \/ Frame.get row "debited_date" = Raise e
         \/ exists r, prepare_refund lib r = Raise e
                      /\ RefundData.key r ∉ map RefundData.key tb).
Proof.
  split; intros tb.
  - unfold booking_row.
    destruct (booking_coerce lib row) as [[[o b] a]|e0]; cbn [bind];
      [|intros [= <-]; now left].
    destruct (booking_exists tb o b) eqn:Hex; [discriminate|].
    destruct (Frame.get row "txn_date") as [t|e1]; cbn [bind];
      [|intros [= <-]; auto].
    destruct (Frame.get row "credited_date") as [c|e2]; cbn [bind];
      [|intros [= <-]; auto].
    unfold booking_create.
    destruct (prepare_booking lib _) as [[]|e3] eqn:Hp; cbn [bind].
    + rewrite booking_unique_when_absent by exact Hex. discriminate.
    + intros [= <-]. right. right. right. eexists. split; [exact Hp|].
      change (BookingData.key _) with (o, b).
      rewrite <- booking_exists_spec. now rewrite Hex.
  - unfold refund_row.
    destruct (refund_coerce lib row) as [[[[o b] f] a]|e0]; cbn [bind];
      [|intros [= <-]; now left].
    destruct (refund_exists tb o b) eqn:Hex; [discriminate|].
    destruct (Frame.get row "refund_date") as [t|e1]; cbn [bind];
      [|intros [= <-]; auto].
    destruct (Frame.get row "debited_date") as [c|e2]; cbn [bind];
      [|intros [= <-]; auto].
    unfold refund_create.
    destruct (prepare_refund lib _) as [[]|e3] eqn:Hp; cbn [bind].
    + rewrite refund_unique_when_absent by exact Hex. discriminate.
    + intros [= <-]. right. right. right. eexists. split; [exact Hp|].
      change (RefundData.key _) with (o, b).
      rewrite <- refund_exists_spec. now rewrite Hex.
Qed.

Lemma row_failures_are_not_conflicts_witness :
  booking_coerce PlainText.lib
    [("irctc_order_no", VStr "12A"); ("bank_booking_ref_no", VStr "7");
     ("booking_amount", VStr "1.00")]
  = Raise (ValueError "invalid literal for int() with base 10: '12A'").
Proof.
  destruct (proj1 (row_failures_are_not_conflicts PlainText.lib 40%Z
                     [("irctc_order_no", VStr "12A");
                      ("bank_booking_ref_no", VStr "7");
                      ("booking_amount", VStr "1.00")]
                     (ValueError "invalid literal for int() with base 10: '12A'"))
             [] eq_refl) as [H|[H|[H|(r & H & _)]]].
  - exact H.
  - discriminate H.
  - discriminate H.
  - discriminate H.
Defined.

(** X10: a loop over two batches of rows is the loop over the first
    batch followed, when that completes, by the loop over the second on
    the table the first left; when a row of the first batch raises, the
    records saved before it stay and the second batch is not touched. *)
Theorem loops_compose (lib : Library) (code : Z) (rs1 rs2 : list Series) :
  (forall tb,
      booking_loop lib code (rs1 ++ rs2) tb
      = match booking_loop lib code rs1 tb with
        | (Ok _, tb1, evs1) =>
            let '(r, tb2, evs2) := booking_loop lib code rs2 tb1 in
            (r, tb2, (evs1 ++ evs2)%list)
        | (Raise e, tb1, evs1) => (Raise e, tb1, evs1)
        end)
  /\ (forall tb,
         refund_loop lib code (rs1 ++ rs2) tb
         = match refund_loop lib code rs1 tb with
           | (Ok _, tb1, evs1) =>
               let '(r, tb2, evs2) := refund_loop lib code rs2 tb1 in
               (r, tb2, (evs1 ++ evs2)%list)
           | (Raise e, tb1, evs1) => (Raise e, tb1, evs1)
           end).
Proof. split; intros tb; apply row_loop_app. Qed.

(** X11: each loop logs one message per row it handled, every row when
    it completes and fewer when a row raises, and the table grows by
    exactly the number of "saved" messages. *)
Theorem loop_accounting (lib : Library) (code : Z) (rs : list Series) :
  (forall tb r tb1 evs,
      booking_loop lib code rs tb = (r, tb1, evs) ->
      length tb1 = length tb + saved_count evs
      /\ match r with
         | Ok _ => length evs = length rs
         | Raise _ => length evs < length rs
         end)
  /\ (forall tb r tb1 evs,
         refund_loop lib code rs tb = (r, tb1, evs) ->
         length tb1 = length tb + saved_count evs
         /\ match r with
            | Ok _ => length evs = length rs
            | Raise _ => length evs < length rs
            end).
Proof.
  split.
  - apply (row_loop_counts (booking_row lib code) (booking_row_counts lib code)).
  - apply (row_loop_counts (refund_row lib code) (refund_row_counts lib code)).
Qed.

Lemma loop_accounting_witness :
  length (booking_branch PlainText.lib blank_reference_rows "karur_vysya" []).1.2
  = 0 + saved_count [Saved 0%Z; Skipped 0%Z].
Proof.
  refine (proj1 (proj1 (loop_accounting PlainText.lib 40%Z
            (Frame.iterrows
               (mkDataFrame (columns blank_reference_rows)
                  [[VTimestamp (mkdate 2024 1 1); VNaN; VNaN; VStr "10.00";
                    VTimestamp (mkdate 2024 1 5)];
                   [VTimestamp (mkdate 2024 1 2); VNaN; VNaN; VStr "20.00";
                    VTimestamp (mkdate 2024 1 6)]])))
            [] (Ok tt) _ [Saved 0%Z; Skipped 0%Z] _)).
  reflexivity.
Defined.

(** ** Which table a run touches *)

Section OneTable.

Context (lib : Library).

Lemma persist_other_table df bank kind bk rf r bk1 rf1 evs :
  persist lib df bank kind bk rf = (r, bk1, rf1, evs) ->
  (kind <> "booking" -> bk1 = bk) /\ (kind <> "refund" -> rf1 = rf).
Proof.
  unfold persist. destruct (String.eqb_spec kind "booking") as [->|Hb].
  - destruct (booking_branch lib df bank bk) as [[r' bk'] evs'].
    intros [= <- <- <- <-]. split; [congruence|reflexivity].
  - destruct (String.eqb_spec kind "refund") as [->|Hr].
    + destruct (refund_branch lib df bank rf) as [[r' rf'] evs'].
      intros [= <- <- <- <-]. split; [reflexivity|congruence].
    + intros [= <- <- <- <-]. split; reflexivity.
Qed.

Lemma table_run_other_table fc fn bank kind view bk rf r bk1 rf1 evs :
  table_run lib fc fn bank kind view bk rf = (r, bk1, rf1, evs) ->
  (kind <> "booking" -> bk1 = bk) /\ (kind <> "refund" -> rf1 = rf).
Proof.
  unfold table_run.
  destruct (load_table lib fc fn) as [df|e].
  - destruct view as [c|].
    + destruct (require_columns _ c) as [df'|e].
      * apply persist_other_table.
      * intros [= <- <- <- <-]. split; reflexivity.
    + intros [= <- <- <- <-]. split; reflexivity.
  - intros [= <- <- <- <-]. split; reflexivity.
Qed.

End OneTable.

(** X12: a run only writes to the table of its record kind: unless the
    kind is "booking" the booking table is left as it was, and unless
    the kind is "refund" the refund table is left as it was. *)
Theorem run_touches_one_table (lib : Library)
  (file_content : list Byte.byte) (file_name bank_name transaction_type : string)
  (st : State) :
  let out := process_uploaded_files lib file_content file_name bank_name
               transaction_type st in
  (transaction_type <> "booking" -> bookings (final out) = bookings st)
  /\ (transaction_type <> "refund" -> refunds (final out) = refunds st).
Proof.
  cbv zeta.
  destruct (table_run lib file_content file_name bank_name transaction_type
              (cleaned_view (registry st) bank_name transaction_type)
              (bookings st) (refunds st)) as [[[r bk] rf] evs] eqn:Ht.
  destruct (process_uploaded_files_table_run lib _ _ _ _ _ _ _ _ _ Ht)
    as (_ & -> & -> & _).
  apply (table_run_other_table lib _ _ _ _ _ _ _ _ _ _ _ Ht).
Qed.

Lemma run_touches_one_table_witness :
  bookings (final (process_uploaded_files PlainText.lib karur_booking_csv
                     "refund.csv" "karur_vysya" "refund"
                     (mkState BANK_MAPPINGS
                        [BookingData.mk 40 VNaT 1 2 VNaN VNaT None None] [])))
  = [BookingData.mk 40 VNaT 1 2 VNaN VNaT None None].
Proof.
  apply (proj1 (run_touches_one_table PlainText.lib karur_booking_csv
                  "refund.csv" "karur_vysya" "refund"
                  (mkState BANK_MAPPINGS
                     [BookingData.mk 40 VNaT 1 2 VNaN VNaT None None] []))).
  discriminate.
Defined.

(** ** Date columns *)

Section DateColumns.

Context (lib : Library).






End DateColumns.



(** ** Whitespace around a date *)

Section StripFacts.
Import Text.

Lemma rstrip_with_idempotent (sp : ascii -> bool) (s : string) :
  rstrip_with sp (rstrip_with sp s) = rstrip_with sp s.
Proof.
  induction s as [|c t IH]; [reflexivity|].
  cbn [rstrip_with]. destruct (rstrip_with sp t) as [|d t'] eqn:Ht.
  - destruct (sp c) eqn:Hc; [reflexivity|]. cbn [rstrip_with]. now rewrite Hc.
  - cbn [rstrip_with] in IH |- *. now rewrite IH.
Qed.

Lemma lstrip_with_head (sp : ascii -> bool) (s : string) :
  lstrip_with sp s = EmptyString
  \/ exists c t, lstrip_with sp s = String c t /\ sp c = false.
Proof.
  induction s as [|c t IH]; [now left|].
  cbn [lstrip_with]. destruct (sp c) eqn:Hc; [exact IH|]. right. eauto.
Qed.

Lemma lstrip_rstrip_lstrip (sp : ascii -> bool) (s : string) :
  lstrip_with sp (rstrip_with sp (lstrip_with sp s))
  = rstrip_with sp (lstrip_with sp s).
Proof.
  destruct (lstrip_with_head sp s) as [->|(c & t & -> & Hc)]; [reflexivity|].
  cbn [rstrip_with]. destruct (rstrip_with sp t); rewrite ?Hc;
    cbn [lstrip_with]; now rewrite Hc.
Qed.

Lemma strip_idempotent (s : string) : strip (strip s) = strip s.
Proof.
  unfold strip. now rewrite lstrip_rstrip_lstrip, rstrip_with_idempotent.
Qed.

End StripFacts.

(** X14: whitespace around a date text is immaterial: the helper gives
    the same result on a text and on the text without its leading and
    trailing whitespace, and so on any two texts that differ only
    there. *)
Theorem try_parse_date_ignores_padding (lib : Library) (s : string) :
  try_parse_date lib (VStr s) = try_parse_date lib (VStr (Text.strip s))
  /\ (forall s', Text.strip s' = Text.strip s ->
                 try_parse_date lib (VStr s') = try_parse_date lib (VStr s)).
Proof.
  assert (Hstrip : forall a b, Text.strip a = Text.strip b ->
                     try_parse_date lib (VStr a) = try_parse_date lib (VStr b)).
  { intros a b E. unfold try_parse_date. cbn [isnull]. now rewrite E. }
  split.
  - apply Hstrip. symmetry. apply strip_idempotent.
  - intros s'. apply Hstrip.
Qed.

Lemma try_parse_date_ignores_padding_witness :
  try_parse_date PlainText.lib (VStr "  2024-03-09 ")
  = try_parse_date PlainText.lib (VStr "2024-03-09").
Proof.
  apply (proj2 (try_parse_date_ignores_padding PlainText.lib "2024-03-09")).
  reflexivity.
Defined.

(** ** Errors of the converter *)

(** X15: whatever makes the conversion of a file fail (an extension that
    is neither ".ods" nor ".json", an unreadable spreadsheet, invalid
    JSON), the converter hands back the empty text, and a file that is
    not delimited text or Excel is then loaded as the empty
    comma-delimited text: the error of the conversion never reaches the
    status of the task, and two such files under one name, with contents
    that fail to convert for different reasons, have the same outcome. *)
Theorem conversion_errors_are_lost (lib : Library) (content : list Byte.byte)
  (file_name : string) (e : exn) :
  convert_body lib content file_name = Raise e ->
  convert_to_csv lib content file_name = ""
  /\ (Text.endswith file_name ".csv" = false ->
      Text.endswith file_name ".txt" = false ->
      Text.endswith file_name ".xlsx" = false ->
      Text.endswith file_name ".xls" = false ->
      load_table lib content file_name = read_csv lib "" ","%char
      /\ forall content' e' bank_name transaction_type st,
           convert_body lib content' file_name = Raise e' ->
           process_uploaded_files lib content file_name bank_name
             transaction_type st
           = process_uploaded_files lib content' file_name bank_name
               transaction_type st).
Proof.
  intros He.
  assert (Hc : convert_to_csv lib content file_name = "").
  { unfold convert_to_csv. now rewrite He. }
  split; [exact Hc|]. intros H1 H2 H3 H4.
  assert (Hl : forall c x, convert_body lib c file_name = Raise x ->
                 load_table lib c file_name = read_csv lib "" ","%char).
  { intros c x Hce. unfold load_table. rewrite H1, H2, H3, H4. cbn [orb].
    unfold convert_to_csv. now rewrite Hce. }
  split; [now apply (Hl content e)|].
  intros content' e' bank kind st E.
  unfold process_uploaded_files, process_body.
  now rewrite (Hl content e He), (Hl content' e' E).
Qed.

Lemma conversion_errors_are_lost_witness :
  load_table PlainText.lib karur_booking_csv "report.ods"
  = read_csv PlainText.lib "" ","%char.
Proof.
  refine (proj1 (proj2 (conversion_errors_are_lost PlainText.lib
                          karur_booking_csv "report.ods"
                          (LibraryError "pyexcel_ods is not available") _)
                   _ _ _ _));
    reflexivity.
Defined.

(** ** The column filter *)

Section ColumnFilter.

Lemma positions_unique label cols k :
  NoDup cols -> label ∈ cols ->
  exists i, Frame.positions label cols k = [k + i]
            /\ nth i cols "" = label /\ i < length cols.
Proof.
  intros Hnd. revert k. induction Hnd as [|c cols Hc Hnd IH]; intros k Hin.
  - inversion Hin.
  - cbn [Frame.positions]. destruct (String.eqb_spec c label) as [->|Hne].
    + exists 0. rewrite (positions_absent label cols (S k) Hc), Nat.add_0_r.
      repeat split. simpl. lia.
    + apply elem_of_cons in Hin as [E|Hin]; [congruence|].
      destruct (IH (S k) Hin) as (i & Hp & Hn & Hi).
      exists (S i). rewrite Hp. replace (k + S i) with (S k + i) by lia.
      repeat split; [exact Hn|simpl; lia].
Qed.

(** The indices picked by the filter, label by label. *)
Lemma select_indices cols req :
  NoDup cols -> Forall (fun l => l ∈ cols) req ->
  Forall2 (fun l i => Frame.positions l cols 0 = [i] /\ nth i cols "" = l)
          req (flat_map (fun l => Frame.positions l cols 0) req).
Proof.
  intros Hnd. induction 1 as [|l req Hl _ IH]; cbn [flat_map]; [constructor|].
  destruct (positions_unique l cols 0 Hnd Hl) as (i & Hp & Hn & _).
  rewrite Hp. cbn [app]. constructor; [|exact IH]. now rewrite <- Hp.
Qed.

Lemma indices_name_columns cols req idx :
  Forall2 (fun l i => Frame.positions l cols 0 = [i] /\ nth i cols "" = l)
          req idx ->
  map (fun i => nth i cols "") idx = req.
Proof.
  induction 1 as [|l i req idx [_ Hn] _ IH]; cbn [map]; [reflexivity|].
  now rewrite Hn, IH.
Qed.

Lemma indices_at cols req idx :
  Forall2 (fun l i => Frame.positions l cols 0 = [i] /\ nth i cols "" = l)
          req idx ->
  forall j, j < length req ->
    j < length idx
    /\ Frame.positions (nth j req "") cols 0 = [nth j idx 0].
Proof.
  induction 1 as [|l i req idx [Hp _] _ IH]; intros j Hj; simpl in *; [lia|].
  destruct j as [|j]; [split; [lia|exact Hp]|].
  destruct (IH j) as [? ?]; [lia|]. split; [lia|assumption].
Qed.

Lemma cell_of_selected (r : list value) (idx : list nat) (j : nat) :
  j < length idx ->
  Frame.cell (map (Frame.cell r) idx) j = Frame.cell r (nth j idx 0).
Proof.
  unfold Frame.cell. revert j. induction idx as [|i idx IH]; intros j; simpl; [lia|].
  destruct j as [|j]; [reflexivity|]. intros H. apply IH. lia.
Qed.

End ColumnFilter.

(** X16: when the headers of the table are pairwise distinct, the column
    filter follows the mapping and not the file: the filtered table has
    exactly the required columns in the order of the mapping, as many
    rows as before, and under each required name the cells the file had
    under that name. *)
Theorem column_filter_follows_mapping (df df' : DataFrame)
  (required_columns : list string) :
  NoDup (columns df) ->
  NoDup required_columns ->
  require_columns df required_columns = Ok df' ->
  columns df' = required_columns
  /\ length (rows df') = length (rows df)
  /\ (forall label, label ∈ required_columns ->
        Frame.get_column df' label = Frame.get_column df label).
Proof.
  intros Hnd Hreq. unfold require_columns.
  destruct (filter _ required_columns) eqn:Hf; [|discriminate].
  intros [= <-].
  assert (Hall : Forall (fun l => l ∈ columns df) required_columns).
  { rewrite Forall_forall. intros l Hl.
    destruct (decide (l ∈ columns df)) as [?|Hn]; [assumption|].
    assert (l ∈ filter (fun c => c ∉ columns df) required_columns) as Hin
      by now apply list_elem_of_filter.
    rewrite Hf in Hin. inversion Hin. }
  pose proof (select_indices _ _ Hnd Hall) as Hidx.
  pose proof (indices_name_columns _ _ _ Hidx) as Hcols.
  unfold Frame.select. cbn [columns rows].
  split; [exact Hcols|]. split; [apply length_map|].
  intros label Hl. unfold Frame.get_column. cbn [columns rows]. rewrite Hcols.
  destruct (positions_unique label required_columns 0 Hreq Hl)
    as (j & Hpj & Hnj & Hj).
  rewrite Hpj. cbn [Nat.add].
  destruct (indices_at _ _ _ Hidx j Hj) as [Hji Hpi]. rewrite Hnj in Hpi.
  rewrite Hpi. f_equal. rewrite map_map. apply map_ext. intros r.
  now apply cell_of_selected.
Qed.

Lemma column_filter_follows_mapping_witness :
  exists df',
    require_columns
      (mkDataFrame ["C"; "A"; "B"] [[VStr "c1"; VStr "a1"; VStr "b1"]])
      ["A"; "C"] = Ok df'
    /\ columns df' = ["A"; "C"]
    /\ Frame.get_column df' "C" = Ok [VStr "c1"].
Proof.
  exists (Frame.select
            (mkDataFrame ["C"; "A"; "B"] [[VStr "c1"; VStr "a1"; VStr "b1"]])
            ["A"; "C"]).
  split; [reflexivity|].
  destruct (column_filter_follows_mapping
              (mkDataFrame ["C"; "A"; "B"] [[VStr "c1"; VStr "a1"; VStr "b1"]])
              (Frame.select
                 (mkDataFrame ["C"; "A"; "B"]
                    [[VStr "c1"; VStr "a1"; VStr "b1"]])
                 ["A"; "C"])
              ["A"; "C"]) as (H1 & _ & H3).
  - cbn [columns]. apply NoDup_ListNoDup. repeat constructor; cbn; intuition discriminate.
  - apply NoDup_ListNoDup. repeat constructor; cbn; intuition discriminate.
  - reflexivity.
  - split; [exact H1|]. rewrite H3; [reflexivity|]. apply list_elem_of_In. cbn. auto.
Defined.

(** ** Dates written with slashes *)

Section SlashDates.
Import Text Strptime.

Lemma range_not_slash (lo hi : N) (c : ascii) :
  in_range lo hi c = true -> (47 < lo)%N -> Ascii.eqb "/" c = false.
Proof.
  intros Hr Hlo. destruct (Ascii.eqb_spec "/"%char c) as [<-|_]; [|reflexivity].
  unfold in_range, code in Hr. change (N_of_ascii "/") with 47%N in Hr.
  destruct (N.leb_spec lo 47) as [Hle|_]; [lia|discriminate Hr].
Qed.

Lemma eqb_not_slash (x c : ascii) :
  Ascii.eqb c x = true -> x <> "/"%char -> Ascii.eqb "/" c = false.
Proof.
  intros H Hx. apply Ascii.eqb_eq in H as ->.
  destruct (Ascii.eqb_spec "/"%char x) as [E|_]; [congruence|reflexivity].
Qed.

Lemma lower_not_slash (x c : ascii) :
  lower c = x -> x <> "/"%char -> Ascii.eqb "/" c = false.
Proof.
  intros H Hx. destruct (Ascii.eqb_spec "/"%char c) as [<-|_]; [|reflexivity].
  vm_compute in H. congruence.
Qed.

Lemma guard_elem {A : Type} (b : bool) (x y : A) :
  y ∈ guard b x -> b = true /\ y = x.
Proof.
  destruct b; cbn [guard]; intros H.
  - apply list_elem_of_singleton in H. auto.
  - inversion H.
Qed.

Lemma month_name_letters (a b c : ascii) (n : string) (m : Z) :
  (n, m) ∈ month_abbr ->
  String.eqb n (String (lower a) (String (lower b) (String (lower c) ""))) = true ->
  Ascii.eqb "/" a = false /\ Ascii.eqb "/" b = false /\ Ascii.eqb "/" c = false.
Proof.
  intros Hin Heq. apply String.eqb_eq in Heq. unfold month_abbr in Hin.
  repeat (apply elem_of_cons in Hin as [Hin|Hin];
          [injection Hin as -> _;
           injection Heq as Hc Hb Ha;
           repeat split;
           (eapply lower_not_slash; [symmetry; eassumption|discriminate])|]).
  inversion Hin.
Qed.

Ltac not_slash :=
  repeat match goal with
    | H : _ && _ = true |- _ => apply andb_prop in H as [? ?]
    | H : _ || _ = true |- _ => apply orb_prop in H as [?|?]
    end;
  repeat match goal with
    | H : in_range _ _ ?c = true |- context [Ascii.eqb "/" ?c] =>
        rewrite (range_not_slash _ _ c H) by lia
    | H : is_digit ?c = true |- context [Ascii.eqb "/" ?c] =>
        rewrite (range_not_slash 48 57 c H) by lia
    | H : Ascii.eqb ?c ?x = true |- context [Ascii.eqb "/" ?c] =>
        rewrite (eqb_not_slash x c H) by discriminate
    end;
  try reflexivity.

Lemma alternatives_keep_slashes (d : directive) (s : string) v rest :
  (v, rest) ∈ alternatives d s ->
  is_slash_literal d = false ->
  contains_char "/" s = contains_char "/" rest.
Proof.
  intros Hin Hd. destruct d.
  - (* %d *)
    destruct s as [|a [|b t]]; cbn [alternatives] in Hin; [inversion Hin| |].
    + apply guard_elem in Hin as [Hg [= _ ->]]. cbn [contains_char]. not_slash.
    + rewrite !elem_of_app in Hin. destruct Hin as [Hin|[Hin|Hin]];
        apply guard_elem in Hin as [Hg [= _ ->]]; cbn [contains_char]; not_slash.
  - (* %m *)
    destruct s as [|a [|b t]]; cbn [alternatives] in Hin; [inversion Hin| |].
    + apply guard_elem in Hin as [Hg [= _ ->]]. cbn [contains_char]. not_slash.
    + rewrite !elem_of_app in Hin. destruct Hin as [Hin|Hin];
        apply guard_elem in Hin as [Hg [= _ ->]]; cbn [contains_char]; not_slash.
  - (* %b *)
    destruct s as [|a [|b [|c t]]]; cbn [alternatives] in Hin;
      try (inversion Hin; fail).
    apply list_elem_of_omap in Hin as ([n m] & Hnm & Hf).
    destruct (String.eqb n _) eqn:Heq; [|discriminate].
    injection Hf as _ ->.
    destruct (month_name_letters a b c n m Hnm Heq) as (Ha & Hb & Hc).
    cbn [contains_char]. now rewrite Ha, Hb, Hc.
  - (* %y *)
    destruct s as [|a [|b t]]; cbn [alternatives] in Hin;
      try (inversion Hin; fail).
    apply guard_elem in Hin as [Hg [= _ ->]]. cbn [contains_char]. not_slash.
  - (* %Y *)
    destruct s as [|a [|b [|c [|e t]]]]; cbn [alternatives] in Hin;
      try (inversion Hin; fail).
    apply guard_elem in Hin as [Hg [= _ ->]]. cbn [contains_char]. not_slash.
  - (* a literal other than the slash *)
    destruct s as [|a t]; cbn [alternatives] in Hin; [inversion Hin|].
    apply guard_elem in Hin as [Hg [= _ ->]]. cbn [contains_char].
    cbn [is_slash_literal] in Hd.
    apply Ascii.eqb_eq in Hg as ->.
    destruct (Ascii.eqb_spec "/"%char c) as [<-|_]; [discriminate Hd|reflexivity].
Qed.

Lemma alternatives_of_slash (d : directive) (s : string) v rest :
  (v, rest) ∈ alternatives d s ->
  is_slash_literal d = true ->
  contains_char "/" s = true.
Proof.
  intros Hin Hd. destruct d; try discriminate Hd.
  cbn [is_slash_literal] in Hd. apply Ascii.eqb_eq in Hd as ->.
  destruct s as [|a t]; cbn [alternatives] in Hin; [inversion Hin|].
  apply guard_elem in Hin as [Hg _]. apply Ascii.eqb_eq in Hg as ->.
  reflexivity.
Qed.

Lemma first_some_elem {A B : Type} (k : A -> option B) (l : list A) (y : B) :
  first_some k l = Some y -> exists x, x ∈ l /\ k x = Some y.
Proof.
  induction l as [|x l IH]; cbn [first_some]; [discriminate|].
  destruct (k x) as [y'|] eqn:Hk.
  - intros [= <-]. exists x. split; [apply elem_of_cons; now left|exact Hk].
  - intros H. destruct (IH H) as (x' & Hx' & Hk').
    exists x'. split; [apply elem_of_cons; now right|exact Hk'].
Qed.

(** A text matches a format only if it has a slash exactly when the
    format has one. *)
Lemma fullmatch_slash (fmt : list directive) :
  forall s f g,
    fullmatch fmt s f = Some g ->
    contains_char "/" s = existsb is_slash_literal fmt.
Proof.
  induction fmt as [|d fmt IH]; intros s f g; cbn [fullmatch existsb].
  - destruct s; [reflexivity|discriminate].
  - intros H. apply first_some_elem in H as ([v rest] & Hin & Hm).
    destruct (is_slash_literal d) eqn:Hd.
    + now rewrite (alternatives_of_slash d s v rest Hin Hd).
    + rewrite (alternatives_keep_slashes d s v rest Hin Hd).
      now rewrite (IH _ _ _ Hm).
Qed.

Lemma to_datetime_slash (s : string) fmt (d : date) :
  to_datetime s fmt = Ok d ->
  contains_char "/" s = existsb is_slash_literal fmt.
Proof.
  unfold to_datetime.
  destruct (fullmatch fmt s default_fields) as [g|] eqn:Hm; [|discriminate].
  intros _. exact (fullmatch_slash fmt s _ _ Hm).
Qed.

Lemma slash_text_fails (s : string) fmt :
  contains_char "/" s = true ->
  existsb is_slash_literal fmt = false ->
  format_fails s fmt.
Proof.
  intros Hs Hf. unfold format_fails.
  destruct (to_datetime s fmt) as [d|e] eqn:E; [|eauto].
  rewrite (to_datetime_slash s fmt d E), Hf in Hs. discriminate.
Qed.

End SlashDates.

(** X17: a date written with slashes is read day first: when the text
    parses as DD/MM/YYYY that reading is the result, and the MM/DD/YYYY
    reading is the result only when the day-first reading fails; the
    dashed formats never apply to such a text and the generic parser is
    not consulted. *)
Theorem slash_dates_are_day_first (lib : Library) (s : string) (d : date) :
  Text.strip s <> "" ->
  (Strptime.to_datetime (Text.strip s) Strptime.fmt_d_m_Y_slash = Ok d ->
   try_parse_date lib (VStr s) = Ok (VTimestamp d))
  /\ (format_fails (Text.strip s) Strptime.fmt_d_m_Y_slash ->
      Strptime.to_datetime (Text.strip s) Strptime.fmt_m_d_Y_slash = Ok d ->
      try_parse_date lib (VStr s) = Ok (VTimestamp d)).
Proof.
  intros Hs. rewrite (try_parse_date_text lib s Hs). split.
  - intros H. pose proof (to_datetime_slash _ _ _ H) as Hslash.
    change Strptime.formats
      with ([Strptime.fmt_d_b_y; Strptime.fmt_Y_m_d]
              ++ Strptime.fmt_d_m_Y_slash
              :: [Strptime.fmt_d_m_Y_dash; Strptime.fmt_m_d_Y_slash])%list.
    rewrite (try_formats_first _ _ _ _ d); [reflexivity| |exact H].
    repeat constructor; now apply slash_text_fails.
  - intros Hfail H. pose proof (to_datetime_slash _ _ _ H) as Hslash.
    change Strptime.formats
      with ([Strptime.fmt_d_b_y; Strptime.fmt_Y_m_d; Strptime.fmt_d_m_Y_slash;
             Strptime.fmt_d_m_Y_dash]
              ++ Strptime.fmt_m_d_Y_slash :: [])%list.
    rewrite (try_formats_first _ _ _ _ d); [reflexivity| |exact H].
    repeat constructor; try exact Hfail; now apply slash_text_fails.
Qed.

Lemma slash_dates_are_day_first_witness :
  try_parse_date PlainText.lib (VStr "03/04/2024")
  = Ok (VTimestamp (mkdate 2024 4 3))
  /\ try_parse_date PlainText.lib (VStr "12/25/2024")
     = Ok (VTimestamp (mkdate 2024 12 25)).
Proof.
  split.
  - apply (proj1 (slash_dates_are_day_first PlainText.lib "03/04/2024"
                    (mkdate 2024 4 3) ltac:(discriminate))).
    reflexivity.
  - apply (proj2 (slash_dates_are_day_first PlainText.lib "12/25/2024"
                    (mkdate 2024 12 25) ltac:(discriminate))).
    + eexists. reflexivity.
    + reflexivity.
Defined.

(** ** What a completed pass leaves in the table *)

Section LoopCoverage.

Context {T : Type} (body : Series -> list T -> result (list T * row_event)).

Hypothesis body_extends :
  forall row tb tb' ev,
    body row tb = Ok (tb', ev) -> exists ext, tb' = (tb ++ ext)%list.
Hypothesis body_settles :
  forall row tb tb' ev, body row tb = Ok (tb', ev) -> settled body row tb'.
Hypothesis settled_mono :
  forall row tb ext, settled body row tb -> settled body row (tb ++ ext)%list.

Lemma row_loop_extends (rs : list Series) :
  forall tb r tb1 evs,
    row_loop body rs tb = (r, tb1, evs) -> exists ext, tb1 = (tb ++ ext)%list.
Proof.
  induction rs as [|row rs IH]; intros tb r tb1 evs; cbn [row_loop].
  - intros [= <- <- <-]. exists []. now rewrite app_nil_r.
  - destruct (body row tb) as [[tb' ev]|e] eqn:Hb.
    + destruct (row_loop body rs tb') as [[r' tb''] evs'] eqn:Hl.
      intros [= <- <- <-].
      destruct (IH _ _ _ _ Hl) as [ext ->].
      destruct (body_extends _ _ _ _ Hb) as [ext0 ->].
      exists (ext0 ++ ext)%list. now rewrite app_assoc.
    + intros [= <- <- <-]. exists []. now rewrite app_nil_r.
Qed.

Lemma row_loop_settles_all (rs : list Series) :
  forall tb tb1 evs,
    row_loop body rs tb = (Ok tt, tb1, evs) ->
    Forall (fun row => settled body row tb1) rs.
Proof.
  induction rs as [|row rs IH]; intros tb tb1 evs; cbn [row_loop].
  - intros _. constructor.
  - destruct (body row tb) as [[tb' ev]|e] eqn:Hb; [|discriminate].
    destruct (row_loop body rs tb') as [[r' tb''] evs'] eqn:Hl.
    intros [= -> <- <-]. constructor.
    + destruct (row_loop_extends rs _ _ _ _ Hl) as [ext ->].
      apply settled_mono. exact (body_settles _ _ _ _ Hb).
    + exact (IH _ _ _ Hl).
Qed.

End LoopCoverage.

Section CoverageInstances.

Context (lib : Library).

Lemma booking_row_extends code row tb tb' ev :
  booking_row lib code row tb = Ok (tb', ev) ->
  exists ext, tb' = (tb ++ ext)%list.
Proof.
  intros H. destruct (booking_row_step lib _ _ _ _ _ H) as [[-> _]|(r & -> & _)].
  - exists []. now rewrite app_nil_r.
  - eauto.
Qed.

Lemma refund_row_extends code row tb tb' ev :
  refund_row lib code row tb = Ok (tb', ev) ->
  exists ext, tb' = (tb ++ ext)%list.
Proof.
  intros H. destruct (refund_row_step lib _ _ _ _ _ H) as [[-> _]|(r & -> & _)].
  - exists []. now rewrite app_nil_r.
  - eauto.
Qed.

Lemma booking_settled_stored code row tb :
  settled (booking_row lib code) row tb ->
  exists o b amount,
    booking_coerce lib row = Ok (o, b, amount)
    /\ (o, b) ∈ map BookingData.key tb.
Proof.
  intros [o' H].
  destruct (booking_row_cases lib _ _ _ _ _ H)
    as (o & b & a & Hc & [(Hex & _)|(_ & [=] & _)]).
  exists o, b, a. split; [exact Hc|]. now apply booking_exists_spec.
Qed.

Lemma refund_settled_stored code row tb :
  settled (refund_row lib code) row tb ->
  exists o b f amount,
    refund_coerce lib row = Ok (o, b, f, amount)
    /\ (o, b) ∈ map RefundData.key tb.
Proof.
  intros [o' H].
  destruct (refund_row_cases lib _ _ _ _ _ H)
    as (o & b & f & a & Hc & [(Hex & _)|(_ & [=] & _)]).
  exists o, b, f, a. split; [exact Hc|]. now apply refund_exists_spec.
Qed.

End CoverageInstances.

(** X18: after a pass of a loop that completes, every row of the pass is
    covered: its coercion succeeded and the table holds a record with
    its pair of IRCTC order number and bank booking reference number,
    saved by this pass or found there. *)
Theorem completed_pass_covers_every_row (lib : Library) (code : Z)
  (rs : list Series) :
  (forall tb tb1 evs,
      booking_loop lib code rs tb = (Ok tt, tb1, evs) ->
      Forall (fun row =>
                exists o b amount,
                  booking_coerce lib row = Ok (o, b, amount)
                  /\ (o, b) ∈ map BookingData.key tb1) rs)
  /\ (forall tb tb1 evs,
         refund_loop lib code rs tb = (Ok tt, tb1, evs) ->
         Forall (fun row =>
                   exists o b f amount,
                     refund_coerce lib row = Ok (o, b, f, amount)
                     /\ (o, b) ∈ map RefundData.key tb1) rs).
Proof.
  split; intros tb tb1 evs H.
  - eapply Forall_impl;
      [exact (row_loop_settles_all (booking_row lib code)
                (booking_row_extends lib code) (booking_row_settles lib code)
                (booking_row_settled_mono lib code) rs tb tb1 evs H)|].
    intros row. apply booking_settled_stored.
  - eapply Forall_impl;
      [exact (row_loop_settles_all (refund_row lib code)
                (refund_row_extends lib code) (refund_row_settles lib code)
                (refund_row_settled_mono lib code) rs tb tb1 evs H)|].
    intros row. apply refund_settled_stored.
Qed.

Lemma completed_pass_covers_every_row_witness :
  Forall (fun row =>
            exists o b amount,
              booking_coerce PlainText.lib row = Ok (o, b, amount)
              /\ (o, b) ∈ map BookingData.key
                            (booking_loop PlainText.lib 40%Z
                               (Frame.iterrows karur_booking_renamed) []).1.2)
         (Frame.iterrows karur_booking_renamed).
Proof.
  apply (proj1 (completed_pass_covers_every_row PlainText.lib 40%Z
                  (Frame.iterrows karur_booking_renamed))
           [] _ [Saved 12345%Z]).
  reflexivity.
Defined.

(** ** Repeating a completed pass *)

(** X19: when a pass of the booking or refund branch over a table
    completes, a second pass of the same table of rows, on the records
    the first pass left, completes as well, leaves the records as they
    are and logs a "skipped" message for every row. *)
Theorem repeated_pass_skips_every_row (lib : Library) (df : DataFrame)
  (bank_name : string) :
  (forall tb tb1 evs,
      booking_branch lib df bank_name tb = (Ok tt, tb1, evs) ->
      exists evs2,
        booking_branch lib df bank_name tb1 = (Ok tt, tb1, evs2)
        /\ Forall is_skipped evs2
        /\ length evs2 = length (rows df))
  /\ (forall tb tb1 evs,
         refund_branch lib df bank_name tb = (Ok tt, tb1, evs) ->
         exists evs2,
           refund_branch lib df bank_name tb1 = (Ok tt, tb1, evs2)
           /\ Forall is_skipped evs2
           /\ length evs2 = length (rows df)).
Proof.
  split; intros tb tb1 evs H.
  - destruct (booking_branch_again lib _ _ _ _ _ _ H) as (evs2 & ? & ? & Hl).
    exists evs2. auto.
  - destruct (refund_branch_again lib _ _ _ _ _ _ H) as (evs2 & ? & ? & Hl).
    exists evs2. auto.
Qed.

Lemma repeated_pass_skips_every_row_witness :
  exists tb1 evs2,
    booking_branch PlainText.lib karur_booking_renamed "karur_vysya" []
    = (Ok tt, tb1, [Saved 12345%Z])
    /\ booking_branch PlainText.lib karur_booking_renamed "karur_vysya" tb1
       = (Ok tt, tb1, evs2)
    /\ Forall is_skipped evs2
    /\ length evs2 = 1.
Proof.
  destruct (proj1 (repeated_pass_skips_every_row PlainText.lib
                     karur_booking_renamed "karur_vysya")
              []
              (booking_branch PlainText.lib karur_booking_renamed
                 "karur_vysya" []).1.2
              [Saved 12345%Z] eq_refl)
    as (evs2 & H2 & Hs & Hl).
  eexists _, evs2. split; [reflexivity|]. split; [exact H2|]. split; assumption.
Defined.
